(** * SeeQR: query bookkeeping, dummy-data generation and database lifecycle

    A shallow embedding of three parts of the application:

    - [frontend/lib/queries.ts]: the keyed collection of queries and the
      timing helpers ([Queries]);
    - the dummy-data generator, [generateDataByType] and
      [generateDummyData] ([DummyData]);
    - the IPC handlers [duplicate-db], [import-db] and [run-query] of the
      main process ([Channels]).

    JavaScript numbers are modelled by rationals ([Q]) or, where the
    code only handles integers, by [Z]; the arithmetic of the generator
    rounds each result to the nearest double ([Double.fl]).  Strings are
    modelled by [string]; objects used as dictionaries by
    [gmap string _]; promises by an outcome type that keeps "resolved"
    and "rejected" apart. *)

From Stdlib Require Import ZArith QArith Qround Qpower Lqa List Ascii String Lia.
From Stdlib Require DecimalString.
From stdpp Require Import base option list gmap strings.

Open Scope string_scope.
Open Scope Z_scope.

(** ** JavaScript numbers and their decimal renderings *)

Module JsNum.

(** [Number.prototype.toString] on an integer value. *)
Definition string_of_Z (z : Z) : string :=
  DecimalString.NilZero.string_of_int (Z.to_int z).








Definition Qabs' (x : Q) : Q := if Qle_bool 0 x then x else Qopp x.






End JsNum.

(** ** Double-precision arithmetic *)

Module Double.

(** The binary exponent [e] of a positive number: [2^e <= x < 2^(e+1)]. *)
Definition exponent2 (x : Q) : Z :=
  let e0 := Z.log2 (Qnum x) - Z.log2 (Zpos (Qden x)) in
  if Qle_bool (2 ^ e0) x then e0 else e0 - 1.

(** The nearest integer, the even one of the two on a tie. *)
Definition round_half_even (y : Q) : Z :=
  let f := Qfloor y in
  match (y - inject_Z f ?= 1 # 2)%Q with
  | Lt => f
  | Gt => f + 1
  | Eq => if Z.even f then f else f + 1
  end.

(** The double that an arithmetic operation returns for the real result
    [x]: the nearest number of 53 significant bits, the one with an even
    last bit on a tie.  The range of the exponent is not modelled (no
    overflow, no subnormal numbers). *)
Definition fl (x : Q) : Q :=
  if Qeq_bool x 0 then 0%Q
  else
    let a := JsNum.Qabs' x in
    let ulp := (2 ^ (exponent2 a - 52))%Q in
    let v := (inject_Z (round_half_even (a / ulp)) * ulp)%Q in
    if Qle_bool 0 x then v else Qopp v.

End Double.

(** ** The [ms] package, long format *)

Module Ms.
Import JsNum.

Definition s : Q := 1000.
Definition m : Q := 60000.
Definition d : Q := 86400000.



End Ms.

(** ** [frontend/lib/queries.ts] *)

Module Queries.
Import JsNum.

Record ExplainPlan := mkPlan { Execution_Time : Q; Planning_Time : Q }.

Record QueryData := mkQuery {
  label : string;
  db : string;
  sqlString : string;
  executionPlan : option ExplainPlan;
}.

(** [keyFromData] *)
Definition keyFromData (label db : string) : string :=
  "label:" ++ label ++ " db:" ++ db.

(** [key] *)
Definition key (query : QueryData) : string :=
  "label:" ++ label query ++ " db:" ++ db query.



(** *** The collections as heap objects

    [createQuery], [deleteQuery] and [setCompare] receive a reference to
    an object and build another one; the store maps a reference to the
    object's own properties, so that mutation through an alias would be
    visible. *)

Definition loc := positive.
Abbreviation Collection := (gmap string QueryData).
Abbreviation Store := (gmap loc (gmap string QueryData)).

(** Allocation of an object literal. *)
Definition alloc (st : Store) (o : Collection) : Store * loc :=
  let l := fresh (dom st) in (<[l := o]> st, l).

(** [createQuery]: [{ ...queries, [key(newQuery)]: newQuery }].
    [None] is a reference to no object, which JavaScript cannot form. *)
Definition createQuery (st : Store) (queries : loc) (newQuery : QueryData)
  : option (Store * loc) :=
  props ← st !! queries;
  Some (alloc st (<[key newQuery := newQuery]> props)).

(** [deleteQuery]: copy, then [delete tempQueries[key(queryToDelete)]]. *)
Definition deleteQuery (st : Store) (queries : loc) (queryToDelete : QueryData)
  : option (Store * loc) :=
  props ← st !! queries;
  let '(st1, tempQueries) := alloc st props in
  Some (alter (delete (key queryToDelete)) tempQueries st1, tempQueries).

(** [setCompare] *)
Definition setCompare (st : Store) (comparedQueries : loc) (query : QueryData)
    (isCompared : bool) : option (Store * loc) :=
  props ← st !! comparedQueries;
  let '(st1, tempQueries) := alloc st props in
  if negb isCompared
  then Some (alter (delete (key query)) tempQueries st1, tempQueries)
  else Some (alter (insert (key query) query) tempQueries st1, tempQueries).

End Queries.

(** ** JavaScript values, errors and effects *)

Module Js.

(** A cell of a generated row or of a database row: [string | number],
    and [undefined] for a property that an object does not have. *)
Inductive Cell :=
| CNum (n : Z)
| CStr (s : string)
| CUndefined.

(** An [Error] object. *)
Record JsError := mkError { ename : string; emessage : string }.

(** [new Error(message)] *)
Definition new_Error (message : string) : JsError := mkError "Error" message.

(** [Error.prototype.toString] *)
Definition toString (e : JsError) : string :=
  if String.eqb (ename e) "" then emessage e
  else if String.eqb (emessage e) "" then ename e
  else ename e ++ ": " ++ emessage e.

(** A computation returns a value or throws; an [async] function
    resolves with the value or rejects with what was thrown. *)
Inductive Res (A : Type) :=
| Val (a : A)
| Exn (e : JsError).
Arguments Val {A} a.
Arguments Exn {A} e.

Section Effects.
Context {W : Type}.

Definition M (A : Type) : Type := W -> Res A * W.

Definition ret {A} (a : A) : M A := fun w => (Val a, w).
Definition throw {A} (e : JsError) : M A := fun w => (Exn e, w).
Definition bind {A B} (c : M A) (k : A -> M B) : M B :=
  fun w => match c w with
           | (Val a, w') => k a w'
           | (Exn e, w') => (Exn e, w')
           end.

(** [try { c } catch (e) { handler e }] *)
Definition try_catch {A} (c : M A) (handler : JsError -> M A) : M A :=
  fun w => match c w with
           | (Val a, w') => (Val a, w')
           | (Exn e, w') => handler e w'
           end.

(** [try { c } finally { cleanup }]: the cleanup runs on every exit of
    [c]; what it throws replaces the outcome of [c]. *)
Definition try_finally {A} (c : M A) (cleanup : M unit) : M A :=
  fun w => match c w with
           | (r, w') =>
               match cleanup w' with
               | (Val _, w'') => (r, w'')
               | (Exn e, w'') => (Exn e, w'')
               end
           end.

(** A [try] whose [catch] hands the error on as a value. *)
Definition attempt {A} (c : M A) : M (JsError + A) :=
  try_catch (bind c (fun a => ret (inr a))) (fun e => ret (inl e)).

Definition get : M W := fun w => (Val w, w).
Definition modify (f : W -> W) : M unit := fun w => (Val tt, f w).
End Effects.
Arguments M W A : clear implicits.

Notation "'let!' x ':=' c 'in' k" := (bind c (fun x => k))
  (at level 10, x name, c at level 100, k at level 200).
Notation "'do!' c 'in' k" := (bind c (fun _ => k))
  (at level 10, c at level 100, k at level 200).

End Js.

(** ** The dummy-data generator *)

Module DummyData.
Import Js.

Record ColumnObj := mkColumn {
  column_name : string;
  data_type : string;
  character_maximum_length : option Z;
  is_nullable : string;
  constraint_type : string;
  foreign_table : string;
  foreign_column : string;
}.

(** A table of the connected database: its columns and its rows, a row
    being an object keyed by column name. *)
Record Table := mkTable {
  tcolumns : list string;
  trows : list (gmap string Cell);
}.

(** What the generator reads and advances: the random source (an
    infinite sequence of draws and the number already consumed) and the
    tables of the connected database. *)
Record World := mkWorld {
  draws : nat -> Z;
  cursor : nat;
  tables : gmap string Table;
}.

Abbreviation M := (Js.M World).

(** One draw of the random source. *)
Definition draw : M Z :=
  fun w => (Val (draws w (cursor w)), mkWorld (draws w) (S (cursor w)) (tables w)).

(** [Math.random()]: a double in [[0, 1)], here [k / 2^53]. *)
Definition Math_random : M Q :=
  let! k := draw in ret (Qmake (k mod 2 ^ 53) (2 ^ 53)).

(** [Math.floor] *)
Definition Math_floor (x : Q) : Z := Qfloor x.

(** [getRandomInt]; both arguments are integers at every call site, so
    [Math.ceil(min)] and [Math.floor(max)] are [min] and [max].  The
    product and the sum are doubles. *)
Definition getRandomInt (min max : Z) : M Z :=
  let minInt := min in
  let maxInt := max in
  let! r := Math_random in
  ret (Math_floor
         (Double.fl (Double.fl (r * inject_Z (maxInt - minInt)) + inject_Z minInt))%Q).

(** [faker.random.number({min, max})]: an integer between the bounds,
    both included. *)
Definition faker_random_number (min max : Z) : M Z :=
  let! k := draw in ret (min + k mod (max - min + 1)).

Definition alphabet : string := "0123456789abcdefghijklmnopqrstuvwxyz".

(** [faker.random.arrayElement] over the 36 alphanumeric characters. *)
Definition faker_random_alphaChar : M ascii :=
  let! k := draw in
  ret (match String.get (Z.to_nat (k mod 36)) alphabet with
       | Some c => c
       | None => "0"%char
       end).

(** [faker.random.alphaNumeric(count)]: [count] characters, none when
    [count] is not positive. *)
Fixpoint alphaNumeric_loop (count : nat) (wholeString : string) : M string :=
  match count with
  | O => ret wholeString
  | S count' =>
      let! c := faker_random_alphaChar in
      alphaNumeric_loop count' (wholeString ++ String c "")
  end.

Definition faker_random_alphaNumeric (count : Z) : M string :=
  alphaNumeric_loop (Z.to_nat count) "".

(** [faker.random.boolean()] *)
Definition faker_random_boolean : M bool :=
  let! k := faker_random_number 0 1 in ret (negb (k =? 0)).

(** ['\''.concat(s).concat('\'')] *)
Definition quote (s : string) : string := ("'" ++ s) ++ "'".

(** [n.toString()] with the [if (x.length === 1) x = `0${x}`] padding. *)
Definition pad2 (n : Z) : string :=
  let x := JsNum.string_of_Z n in
  if Nat.eqb (String.length x) 1 then "0" ++ x else x.

(** [generateDataByType] *)
Definition generateDataByType (columnObj : ColumnObj) : M Cell :=
  let ty := data_type columnObj in
  if String.eqb ty "smallint" then
    let! n := faker_random_number (-32768) 32767 in ret (CNum n)
  else if String.eqb ty "integer" then
    let! n := faker_random_number (-2147483648) 2147483647 in ret (CNum n)
  else if String.eqb ty "bigint" then
    let! n := faker_random_number (-9223372036854775808) 9223372036854775807 in
    ret (CNum n)
  else if String.eqb ty "character varying" then
    let! length :=
      match character_maximum_length columnObj with
      | Some len =>
          if negb (len =? 0) && (len <? 3)
          then let! r := Math_random in
               ret (Math_floor (Double.fl (r * inject_Z len))%Q)
          else ret 3
      | None => ret 3
      end in
    let! str := faker_random_alphaNumeric length in
    ret (CStr (quote str))
  else if String.eqb ty "date" then
    let! year := getRandomInt 1500 2020 in
    let! month := getRandomInt 1 13 in
    let! day := getRandomInt 1 29 in
    let result := JsNum.string_of_Z year ++ "/" ++ pad2 month ++ "/" ++ pad2 day in
    ret (CStr (quote result))
  else if String.eqb ty "boolean" then
    let! b := faker_random_boolean in
    ret (CStr (quote (if b then "true" else "false")))
  else throw (new_Error "unhandled data type").

(** Modelled from the spec: [db.query] of [../models] is not among the
    sources.  For the generator's statement
    [SELECT col FROM tab TABLESAMPLE BERNOULLI(50) LIMIT 1] it rejects
    when the table or the column is unknown; otherwise each row of the
    table is kept or not by one random draw, and the first row kept, if
    any, is returned with the selected column as its only property. *)
Fixpoint bernoulli (rows : list (gmap string Cell)) : M (list (gmap string Cell)) :=
  match rows with
  | [] => ret []
  | r :: rest =>
      let! k := draw in
      let! kept := bernoulli rest in
      ret (if Z.odd k then r :: kept else kept)
  end.

Definition select1 (col : string) (r : gmap string Cell) : gmap string Cell :=
  match r !! col with
  | Some v => {[ col := v ]}
  | None => ∅
  end.

Definition db_query_sample (foreignColumn foreignTable : string)
  : M (list (gmap string Cell)) :=
  fun w =>
    match tables w !! foreignTable with
    | None => (Exn (mkError "error" ("relation " ++ foreignTable ++ " does not exist")), w)
    | Some t =>
        if bool_decide (foreignColumn ∈ tcolumns t) then
          (let! sample := bernoulli (trows t) in
           ret (select1 foreignColumn <$> take 1 sample)) w
        else (Exn (mkError "error" ("column " ++ foreignColumn ++ " does not exist")), w)
    end.

(** [obj['_id']] *)
Definition get_id (obj : gmap string Cell) : Cell :=
  match obj !! "_id" with
  | Some v => v
  | None => CUndefined
  end.

(** What the promise of [generateDummyData] resolves to: the records
    ([dummyRecords[0]] the column names, the other entries the rows), or
    the [Error] object that the function returns. *)
Inductive DummyRecords :=
| Records (columnNames : list string) (rows : list (list Cell))
| ErrorValue (err : JsError).

Definition isNot (c : ColumnObj) (kind : string) : bool :=
  negb (String.eqb (constraint_type c) kind).

(** The callback of [tableInfo.reduce]. *)
Definition collectName (acc : list string) (curr : ColumnObj) : list string :=
  if isNot curr "PRIMARY KEY" then acc ++ [column_name curr] else acc.

(** The inner loop, from column [j] on: [inl] is the value of an early
    [return], [inr] the completed row. *)
Fixpoint fillRow (columns : list ColumnObj) (row : list Cell)
  : M (JsError + list Cell) :=
  match columns with
  | [] => ret (inr row)
  | col :: rest =>
      if isNot col "FOREIGN KEY" && isNot col "PRIMARY KEY" then
        let! v := generateDataByType col in
        fillRow rest (row ++ [v])
      else if String.eqb (constraint_type col) "FOREIGN KEY" then
        let foreignColumn := foreign_column col in
        let foreignTable := foreign_table col in
        let! foreignKey := attempt (db_query_sample foreignColumn foreignTable) in
        match foreignKey with
        | inr (first :: _) => fillRow rest (row ++ [get_id first])
        | inr [] =>
            ret (inl (new_Error "There was an error while retrieving a valid foreign key."))
        | inl err => ret (inl err)
        end
      else fillRow rest row
  end.

(** The outer loop, [todo] iterations left. *)
Fixpoint fillRows (tableInfo : list ColumnObj) (todo : nat)
    (columnNames : list string) (rows : list (list Cell)) : M DummyRecords :=
  match todo with
  | O => ret (Records columnNames rows)
  | S todo' =>
      let! row := fillRow tableInfo [] in
      match row with
      | inl err => ret (ErrorValue err)
      | inr row => fillRows tableInfo todo' columnNames (rows ++ [row])
      end
  end.

(** [generateDummyData]; a thrown error rejects the promise. *)
Definition generateDummyData (tableInfo : list ColumnObj) (numRows : Z)
  : M DummyRecords :=
  let columnNames := fold_left collectName tableInfo [] in
  fillRows tableInfo (Z.to_nat numRows) columnNames [].

End DummyData.

(** ** Node's [path] and [String.prototype.toLowerCase] *)

Module NodePath.

Definition lower_char (c : ascii) : ascii :=
  let n := nat_of_ascii c in
  if (Nat.leb 65 n && Nat.leb n 90)%bool then ascii_of_nat (n + 32) else c.

(** [s.toLowerCase()] on ASCII text. *)
Fixpoint toLowerCase (s : string) : string :=
  match s with
  | EmptyString => EmptyString
  | String c rest => String (lower_char c) (toLowerCase rest)
  end.

(** The variables of the scan in POSIX [path.extname]. *)
Record Scan := mkScan {
  startDot : Z;
  startPart : Z;
  end_ : Z;
  matchedSlash : bool;
  preDotState : Z;
}.

(** The scan over the characters from the last one backwards; [i] is
    the index of the head of [rev_chars]. *)
Fixpoint extname_scan (rev_chars : list ascii) (i : Z) (st : Scan) : Scan :=
  match rev_chars with
  | [] => st
  | code :: before =>
      if Ascii.eqb code "/" then
        if negb (matchedSlash st)
        then mkScan (startDot st) (i + 1) (end_ st) (matchedSlash st) (preDotState st)
        else extname_scan before (i - 1) st
      else
        let st1 :=
          if end_ st =? -1
          then mkScan (startDot st) (startPart st) (i + 1) false (preDotState st)
          else st in
        let st2 :=
          if Ascii.eqb code "." then
            if startDot st1 =? -1
            then mkScan i (startPart st1) (end_ st1) (matchedSlash st1) (preDotState st1)
            else if negb (preDotState st1 =? 1)
            then mkScan (startDot st1) (startPart st1) (end_ st1) (matchedSlash st1) 1
            else st1
          else if negb (startDot st1 =? -1)
          then mkScan (startDot st1) (startPart st1) (end_ st1) (matchedSlash st1) (-1)
          else st1 in
        extname_scan before (i - 1) st2
  end.

(** [path.extname(path)] *)
Definition extname (path : string) : string :=
  let chars := list_ascii_of_string path in
  let st := extname_scan (rev chars) (Z.of_nat (List.length chars) - 1)
              (mkScan (-1) 0 (-1) true 0) in
  if (startDot st =? -1) || (end_ st =? -1) || (preDotState st =? 0)
     || ((preDotState st =? 1) && (startDot st =? end_ st - 1)
         && (startDot st =? startPart st + 1))
  then ""
  else substring (Z.to_nat (startDot st)) (Z.to_nat (end_ st - startDot st)) path.

End NodePath.

(** ** The IPC handlers of the main process *)

Module Channels.
Import Js.

Definition Rows := list (gmap string Cell).

(** Modelled from the spec: [helperFunctions] is not among the sources.
    Its functions build the shell command lines of the dump and restore
    tools and the [CREATE DATABASE] / [DROP DATABASE] statements; the
    commands are kept symbolic. *)
Inductive Cmd :=
| FullCopy (db file : string)
| HollowCopy (db file : string)
| RunSQL (db file : string)
| RunTAR (db file : string).

Inductive Sql :=
| CreateDatabase (name : string)
| DropDatabase (name : string)
| Statement (text : string).

Definition createDBFunc (name : string) : Sql := CreateDatabase name.
Definition dropDBFunc (dbName : string) : Sql := DropDatabase dbName.
Definition runSQLFunc (dbName file : string) : Cmd := RunSQL dbName file.
Definition runTARFunc (dbName file : string) : Cmd := RunTAR dbName file.
Definition runFullCopyFunc (dbCopyName file : string) : Cmd := FullCopy dbCopyName file.
Definition runHollowCopyFunc (dbCopyName file : string) : Cmd := HollowCopy dbCopyName file.

(** What [db.query] resolves to: one result, or an array of results for
    a text of several statements. *)
Inductive QueryReply :=
| OneResult (rows : Rows)
| ManyResults (results : list Rows).

(** Messages sent to the renderer with [event.sender.send]. *)
Inductive Msg :=
| AsyncStarted
| AsyncComplete
| DbLists (databaseList : list string)
| Feedback (type message : string).

(** Calls that leave the process. *)
Inductive Call :=
| Exec (cmd : Cmd)
| Query (sql : Sql)
| Connect (dbName : string)
| GetLists
| Unlink (file : string).

(** The part of the outside world the handlers act on: the databases of
    the server, the database the pool is connected to, and, in order,
    the messages sent and the calls made so far. *)
Record World := mkWorld {
  databases : list string;
  connection : string;
  sent : list Msg;
  calls : list Call;
}.

(** What the handlers cannot decide: which external calls fail and with
    what error, the result of a user statement, the home directory. *)
Record Env := mkEnv {
  exec_fault : Cmd -> option JsError;
  query_fault : Sql -> option JsError;
  statement_reply : string -> JsError + QueryReply;
  connect_fault : string -> option JsError;
  getLists_fault : option JsError;
  unlink_fault : string -> option JsError;
  homedir : string;
}.

Abbreviation M := (Js.M World).

Definition log (c : Call) : M unit :=
  modify (fun w => mkWorld (databases w) (connection w) (sent w) (calls w ++ [c])).

(** [event.sender.send] *)
Definition send (msg : Msg) : M unit :=
  modify (fun w => mkWorld (databases w) (connection w) (sent w ++ [msg]) (calls w)).

Definition set_databases (dbs : list string) : M unit :=
  modify (fun w => mkWorld dbs (connection w) (sent w) (calls w)).

Definition set_connection (dbName : string) : M unit :=
  modify (fun w => mkWorld (databases w) dbName (sent w) (calls w)).

Definition fail_if (fault : option JsError) : M unit :=
  match fault with
  | Some e => throw e
  | None => ret tt
  end.

(** The object returned by the [run-query] handler; [None] is
    [undefined]. *)
Record QueryResult := mkResult {
  r_db : string;
  r_sqlString : string;
  returnedRows : option Rows;
  explainResults : option Rows;
  error : option string;
}.

Section Handlers.
Variable env : Env.

(** Modelled from the spec: [promExecute] of [helperFunctions] is not
    among the sources.  It runs a command line and rejects when the
    process fails; the dump and restore tools create and drop no
    database. *)
Definition promExecute (cmd : Cmd) : M unit :=
  do! log (Exec cmd) in
  fail_if (exec_fault env cmd).

(** Modelled from the spec: [db.query] of [./models] is not among the
    sources.  [CREATE DATABASE] fails when the name exists and then
    creates nothing; [DROP DATABASE] fails when the name does not exist,
    and while the pool is connected to the database (a database cannot be
    dropped while a session holds it open); either can also fail for a
    reason of the server's.  A user statement resolves or rejects as the
    environment says. *)
Definition db_query (sql : Sql) : M QueryReply :=
  do! log (Query sql) in
  match sql with
  | CreateDatabase name =>
      do! fail_if (query_fault env sql) in
      let! w := get in
      if bool_decide (name ∈ databases w)
      then throw (mkError "error" ("database " ++ name ++ " already exists"))
      else do! set_databases (name :: databases w) in ret (OneResult [])
  | DropDatabase name =>
      do! fail_if (query_fault env sql) in
      let! w := get in
      if bool_decide (name ∈ databases w)
      then if String.eqb (connection w) name
           then throw (mkError "error"
                  ("database " ++ name ++ " is being accessed by other users"))
           else do! set_databases (filter (fun d => d ≠ name) (databases w)) in
                ret (OneResult [])
      else throw (mkError "error" ("database " ++ name ++ " does not exist"))
  | Statement text =>
      match statement_reply env text with
      | inl e => throw e
      | inr reply => ret reply
      end
  end.

(** Modelled from the spec: [db.connectToDB] of [./models]. *)
Definition db_connectToDB (dbName : string) : M unit :=
  do! log (Connect dbName) in
  do! fail_if (connect_fault env dbName) in
  set_connection dbName.

(** Modelled from the spec: [db.getLists] of [./models], the refreshed
    view of the databases. *)
Definition db_getLists : M (list string) :=
  do! log GetLists in
  do! fail_if (getLists_fault env) in
  let! w := get in
  ret (databases w).

(** [fs.unlinkSync] *)
Definition fs_unlinkSync (file : string) : M unit :=
  do! log (Unlink file) in
  fail_if (unlink_fault env file).

(** [path.resolve(os.homedir(), 'desktop', `temp_${newName}.sql`)] *)
Definition tempFilePathOf (newName : string) : string :=
  homedir env ++ "/desktop/temp_" ++ newName ++ ".sql".

(** The [duplicate-db] handler. *)
Definition duplicate_db (newName sourceDb : string) (withData : bool) : M unit :=
  do! send AsyncStarted in
  let tempFilePath := tempFilePathOf newName in
  try_finally
    (let dumpCmd :=
       if withData
       then runFullCopyFunc sourceDb tempFilePath
       else runHollowCopyFunc sourceDb tempFilePath in
     do! try_catch (promExecute dumpCmd)
           (fun e => throw (new_Error
              ("Failed to dump " ++ sourceDb ++ " to temp file at " ++ tempFilePath))) in
     do! try_catch (do! db_query (createDBFunc newName) in ret tt)
           (fun e => throw (new_Error "Failed to create Database")) in
     do! try_catch (promExecute (runSQLFunc newName tempFilePath))
           (fun e =>
              let dropDBScript := dropDBFunc newName in
              do! db_query dropDBScript in
              throw (new_Error "Failed to populate newly created database")) in
     let! dbsAndTableInfo := db_getLists in
     send (DbLists dbsAndTableInfo))
    (do! try_catch (fs_unlinkSync tempFilePath)
           (fun e => send (Feedback "error"
              ("Failed to cleanup temp files. " ++ tempFilePath ++ " could not be removed."))) in
     send AsyncComplete).

(** The [import-db] handler. *)
Definition import_db (newDbName filePath : string) : M unit :=
  do! send AsyncStarted in
  try_finally
    (do! db_query (createDBFunc newDbName) in
     let ext := NodePath.toLowerCase (NodePath.extname filePath) in
     if negb (String.eqb ext ".sql") && negb (String.eqb ext ".tar")
     then throw (new_Error "Invalid file extension")
     else
       let restoreCmd :=
         if String.eqb ext ".sql"
         then runSQLFunc newDbName filePath
         else runTARFunc newDbName filePath in
       do! try_catch (promExecute restoreCmd)
             (fun e =>
                let dropDBScript := dropDBFunc newDbName in
                do! db_query dropDBScript in
                throw (new_Error "Failed to populate database")) in
       let! dbsAndTableInfo := db_getLists in
       send (DbLists dbsAndTableInfo))
    (send AsyncComplete).

Definition explainOf (sqlString : string) : string :=
  "BEGIN; EXPLAIN (FORMAT JSON, ANALYZE, VERBOSE, BUFFERS) " ++ sqlString ++ "; ROLLBACK;".

(** [results[1].rows]: a [TypeError] when there is no second result. *)
Definition second_rows (results : QueryReply) : M Rows :=
  match results with
  | ManyResults (_ :: rows :: _) => ret rows
  | _ => throw (mkError "TypeError" "Cannot read property 'rows' of undefined")
  end.

(** [results.rows]: [undefined] on an array of results. *)
Definition rows_of (results : QueryReply) : option Rows :=
  match results with
  | OneResult rows => Some rows
  | ManyResults _ => None
  end.

(** The [run-query] handler. *)
Definition run_query (targetDb sqlString selectedDb : string) : M QueryResult :=
  do! send AsyncStarted in
  try_finally
    (do! (if negb (String.eqb selectedDb targetDb)
          then db_connectToDB targetDb else ret tt) in
     let! explained :=
       try_catch
         (let! results := db_query (Statement (explainOf sqlString)) in
          let! rows := second_rows results in
          ret (Some rows, None))
         (fun e => ret (None,
            Some "Failed to get Execution Plan. EXPLAIN might not support this query.")) in
     let '(explainResults, error) := explained in
     let! ran :=
       try_catch
         (let! results := db_query (Statement sqlString) in
          ret (rows_of results, error))
         (fun e => ret (None, Some (toString e))) in
     let '(returnedRows, error) := ran in
     ret (mkResult targetDb sqlString returnedRows explainResults error))
    (do! (if negb (String.eqb selectedDb targetDb)
          then db_connectToDB selectedDb else ret tt) in
     let! dbsAndTables := db_getLists in
     do! send (DbLists dbsAndTables) in
     send AsyncComplete).

(** The [select-db] handler. *)
Definition select_db (dbName : string) : M unit :=
  do! send AsyncStarted in
  try_finally
    (do! db_connectToDB dbName in
     let! dbsAndTables := db_getLists in
     send (DbLists dbsAndTables))
    (send AsyncComplete).

(** The [drop-db] handler. *)
Definition drop_db (dbName : string) (currDB : bool) : M unit :=
  do! send AsyncStarted in
  try_finally
    (do! (if currDB then db_connectToDB "" else ret tt) in
     let dropDBScript := dropDBFunc dbName in
     do! db_query dropDBScript in
     let! dbsAndTables := db_getLists in
     send (DbLists dbsAndTables))
    (send AsyncComplete).

End Handlers.

End Channels.

(** ** The database-name field of the import dialog *)

Module AddNewDbModal.

(** The character class of [/[^A-Z0-9]/gi]: with the [i] flag, a letter
    of either case or a digit is not matched. *)
Definition kept (c : ascii) : bool :=
  let n := nat_of_ascii c in
  ((Nat.leb 65 n && Nat.leb n 90) || (Nat.leb 97 n && Nat.leb n 122)
   || (Nat.leb 48 n && Nat.leb n 57))%bool.

(** [s.replace(/[^A-Z0-9]/gi, '')] *)
Fixpoint strip (s : string) : string :=
  match s with
  | EmptyString => EmptyString
  | String c rest => if kept c then String c (strip rest) else strip rest
  end.

(** [handleDbName]: the name given to [setNewDbName] for the text typed,
    an ASCII text. *)
Definition handleDbName (dbNameInput : string) : string :=
  let dbSafeName := NodePath.toLowerCase dbNameInput in
  strip dbSafeName.

End AddNewDbModal.

(** * The vocabulary of the properties

    Predicates, abbreviations and sample inputs used to state what the
    code does. *)

Import Js.

Section QueriesVocabulary.
Import Queries.

(** What a call leaves behind: the result is a new reference [l'], the
    object it points to has the properties [o'], and every object
    allocated before, the argument among them, is as it was. *)
Definition returns_copy (st : gmap loc (gmap string QueryData)) (l : loc)
    (r : option (gmap loc (gmap string QueryData) * loc))
    (o' : gmap string QueryData) : Prop :=
  exists st' l',
    r = Some (st', l')
    /\ l' ≠ l
    /\ st !! l' = None
    /\ st' !! l' = Some o'
    /\ forall l0, l0 ≠ l' -> st' !! l0 = st !! l0.

Definition firstQuery : QueryData :=
  mkQuery "firstQuery" "firstDb" "select * from tests" None.

Definition oneEmpty : gmap loc (gmap string QueryData) := {[ 1%positive := ∅ ]}.

End QueriesVocabulary.

Section DummyDataVocabulary.
Import DummyData.
Local Open Scope list_scope.

Definition advance (w : World) : World :=
  mkWorld (draws w) (S (cursor w)) (tables w).

Definition fraction (w : World) : Z := draws w (cursor w) mod 2 ^ 53.

(** The integer that [getRandomInt(min, max)] makes of the draw
    [k / 2^53]. *)
Definition drawnInt (k min max : Z) : Z :=
  Qfloor (Double.fl (Double.fl ((k # 2 ^ 53) * inject_Z (max - min)) + inject_Z min))%Q.

(** The length that the [character varying] case makes of the draw
    [k / 2^53]. *)
Definition drawnLength (k len : Z) : Z :=
  Qfloor (Double.fl ((k # 2 ^ 53) * inject_Z len))%Q.

(** A digit or a lower-case letter. *)
Definition is_alnum (c : ascii) : bool :=
  let n := nat_of_ascii c in
  ((Nat.leb 48 n && Nat.leb n 57) || (Nat.leb 97 n && Nat.leb n 122))%bool.

Definition alnum_string (s : string) : Prop :=
  Forall (fun c => is_alnum c = true) (list_ascii_of_string s).

(** The length the code asks for, given [character_maximum_length]:
    below the maximum when that is 1 or 2, none when it is negative, and
    3 in every other case. *)
Definition varchar_length_ok (maxLength : option Z) (n : nat) : Prop :=
  match maxLength with
  | Some len =>
      if (0 <? len) && (len <? 3) then Z.of_nat n < len
      else if len <? 0 then n = 0%nat
      else n = 3%nat
  | None => n = 3%nat
  end.

Definition varcharColumn (maxLength : option Z) : ColumnObj :=
  mkColumn "name" "character varying" maxLength "YES" "" "" "".

(** A random source whose draws are all [k]. *)
Definition constantWorld (k : Z) : World := mkWorld (fun _ => k) 0 ∅.

Definition dateColumn : ColumnObj := mkColumn "born" "date" None "YES" "" "" "".

(** A computation that leaves the tables of the database as they are. *)
Definition frames {A} (c : DummyData.M A) : Prop :=
  forall w r w', c w = (r, w') -> tables w' = tables w.

(** The predicate of the [reduce] callback and of the row loop. *)
Definition nonPrimary (c : ColumnObj) : bool := isNot c "PRIMARY KEY".

(** [v] is a cell that the generator makes for column [c]: for a
    foreign key, the [_id] property of a sampled row of the referenced
    table; for any other column, a value of [generateDataByType]. *)
Definition generated_for (tbls : gmap string Table) (c : ColumnObj) (v : Cell) : Prop :=
  if String.eqb (constraint_type c) "FOREIGN KEY"
  then exists t row,
         tbls !! foreign_table c = Some t /\ row ∈ trows t
         /\ v = get_id (select1 (foreign_column c) row)
  else exists w, (generateDataByType c w).1 = Val v.

(** [users(_id PK, name varchar(10), age integer, film FK -> films._id)] *)
Definition usersTable : list ColumnObj :=
  [ mkColumn "_id" "integer" None "NO" "PRIMARY KEY" "" "";
    mkColumn "name" "character varying" (Some 10) "YES" "" "" "";
    mkColumn "age" "integer" None "YES" "" "" "";
    mkColumn "film" "integer" None "YES" "FOREIGN KEY" "films" "_id" ].

Definition filmsWorld (idColumn : string) : World :=
  mkWorld (fun n => 2 * Z.of_nat n + 1) 0
    {[ "films" := mkTable [idColumn; "title"]
                    [ {[ idColumn := CNum 7; "title" := CStr "Alien" ]} ] ]}.

Definition usersRows : list (list Cell) :=
  Eval vm_compute in
    match (generateDummyData usersTable 2 (filmsWorld "_id")).1 with
    | Val (Records _ rows) => rows
    | _ => []
    end.

Definition filmColumn (foreignColumn : string) : ColumnObj :=
  mkColumn "film" "integer" None "YES" "FOREIGN KEY" "films" foreignColumn.

End DummyDataVocabulary.

Section ChannelsVocabulary.
Import Channels.
Local Open Scope list_scope.

(** The dump command of [duplicate-db]. *)
Definition dumpCommand (env : Env) (newName sourceDb : string) (withData : bool) : Cmd :=
  if withData
  then FullCopy sourceDb (tempFilePathOf env newName)
  else HollowCopy sourceDb (tempFilePathOf env newName).

Definition restoreFailure : JsError :=
  new_Error "Failed to populate newly created database".

(** The test of [import-db] on the file's extension. *)
Definition unsupported (filePath : string) : bool :=
  let ext := NodePath.toLowerCase (NodePath.extname filePath) in
  negb (String.eqb ext ".sql") && negb (String.eqb ext ".tar").

Definition invalidExtension : JsError := new_Error "Invalid file extension".

(** An environment in which every restore fails and nothing else does. *)
Definition restoreFails : Env :=
  mkEnv (fun c => match c with
                  | RunSQL _ _ | RunTAR _ _ => Some (mkError "Error" "Command failed")
                  | _ => None
                  end)
        (fun _ => None) (fun _ => inr (OneResult [])) (fun _ => None) None
        (fun _ => None) "/home/user".

Definition oneDatabase : World := mkWorld ["source"] "source" [] [].

(** An environment in which every restore fails and the server refuses
    every drop. *)
Definition dropRefused : Env :=
  mkEnv (fun c => match c with
                  | RunSQL _ _ | RunTAR _ _ => Some (mkError "Error" "Command failed")
                  | _ => None
                  end)
        (fun q => match q with
                  | DropDatabase _ => Some (mkError "error" "permission denied")
                  | _ => None
                  end)
        (fun _ => inr (OneResult [])) (fun _ => None) None
        (fun _ => None) "/home/user".


(** An environment in which no external call fails. *)
Definition allGood : Env :=
  mkEnv (fun _ => None) (fun _ => None) (fun _ => inr (OneResult []))
        (fun _ => None) None (fun _ => None) "/home/user".






(** A statement that cannot be explained and fails when executed. *)
Definition bothFail : Env :=
  mkEnv (fun _ => None) (fun _ => None)
        (fun _ => inl (mkError "error" "relation does not exist"))
        (fun _ => None) None (fun _ => None) "/home/user".

End ChannelsVocabulary.

Section CollectionVocabulary.
Import Queries.

(** The entries of the collection that a call returns. *)
Definition returned (r : option (gmap loc (gmap string QueryData) * loc))
  : option (gmap string QueryData) :=
  match r with
  | Some (st', l') => st' !! l'
  | None => None
  end.

(** A query with the text and the plan left out. *)
Definition named (label db : string) : QueryData := mkQuery label db "" None.

End CollectionVocabulary.

Section GeneratorVocabulary.
Import DummyData.
Local Open Scope list_scope.

(** The data types that [generateDataByType] has a case for. *)
Definition supportedType (ty : string) : bool :=
  existsb (String.eqb ty)
    ["smallint"; "integer"; "bigint"; "character varying"; "date"; "boolean"].

(** The bounds passed to [faker.random.number] for an integer type. *)
Definition integerBounds (ty : string) : option (Z * Z) :=
  if String.eqb ty "smallint" then Some (-32768, 32767)
  else if String.eqb ty "integer" then Some (-2147483648, 2147483647)
  else if String.eqb ty "bigint" then Some (-9223372036854775808, 9223372036854775807)
  else None.

Definition unhandled : JsError := new_Error "unhandled data type".

(** A column that is neither a primary key nor a foreign key. *)
Definition plainColumn (c : ColumnObj) : bool :=
  isNot c "FOREIGN KEY" && isNot c "PRIMARY KEY".

Definition typedColumn (ty : string) : ColumnObj :=
  mkColumn "c" ty None "YES" "" "" "".

End GeneratorVocabulary.

Section HandlerVocabulary.
Import Channels.
Local Open Scope list_scope.

(** The messages of one request: "started" first, "complete" last, and
    neither of them in between. *)
Definition bracketed (before after : list Msg) : Prop :=
  exists mid,
    after = before ++ AsyncStarted :: mid ++ [AsyncComplete]
    /\ (AsyncStarted ∉ mid) /\ (AsyncComplete ∉ mid).

(** The same environment, but one in which deleting a file never fails. *)
Definition quietUnlink (env : Env) : Env :=
  mkEnv (exec_fault env) (query_fault env) (statement_reply env)
        (connect_fault env) (getLists_fault env) (fun _ => None) (homedir env).

Definition dumpFailure (env : Env) (newName sourceDb : string) : JsError :=
  new_Error ("Failed to dump " ++ sourceDb ++ " to temp file at "
             ++ tempFilePathOf env newName).

Definition createFailure : JsError := new_Error "Failed to create Database".

Definition cleanupFeedback (env : Env) (newName : string) : Msg :=
  Feedback "error"
    ("Failed to cleanup temp files. " ++ tempFilePathOf env newName
     ++ " could not be removed.").

Definition alreadyExists (name : string) : JsError :=
  mkError "error" ("database " ++ name ++ " already exists").

Definition heldOpen (name : string) : JsError :=
  mkError "error" ("database " ++ name ++ " is being accessed by other users").

Definition doesNotExist (name : string) : JsError :=
  mkError "error" ("database " ++ name ++ " does not exist").

(** An environment in which the dump fails. *)
Definition dumpFails : Env :=
  mkEnv (fun c => match c with
                  | FullCopy _ _ | HollowCopy _ _ => Some (mkError "Error" "Command failed")
                  | _ => None
                  end)
        (fun _ => None) (fun _ => inr (OneResult [])) (fun _ => None) None
        (fun _ => None) "/home/user".

(** An environment in which the temporary file cannot be removed. *)
Definition unlinkFails : Env :=
  mkEnv (fun _ => None) (fun _ => None) (fun _ => inr (OneResult []))
        (fun _ => None) None (fun _ => Some (mkError "Error" "EPERM")) "/home/user".

(** An environment in which the list of databases cannot be read. *)
Definition listsFail : Env :=
  mkEnv (fun _ => None) (fun _ => None) (fun _ => inr (OneResult []))
        (fun _ => None) (Some (mkError "Error" "Connection terminated")) (fun _ => None)
        "/home/user".

(** An environment in which no connection to [target] can be made. *)
Definition targetDown : Env :=
  mkEnv (fun _ => None) (fun _ => None) (fun _ => inr (OneResult []))
        (fun d => if String.eqb d "target"
                  then Some (mkError "error" "database target does not exist")
                  else None)
        None (fun _ => None) "/home/user".

End HandlerVocabulary.

(** * Properties *)

(** ** Rounding to the nearest double *)

Section DoubleRounding.
Import Double.
Local Open Scope Q_scope.

Lemma pow2_pos (e : Z) : 0 < 2 ^ e.
Proof. apply Qpower_0_lt. reflexivity. Qed.

Lemma pow2_succ (e : Z) : 2 ^ (1 + e) == 2 * 2 ^ e.
Proof. rewrite Qpower_plus by discriminate. reflexivity. Qed.

Lemma pow2_Z (e : Z) : (0 <= e)%Z -> 2 ^ e == inject_Z (2 ^ e).
Proof. intros He. symmetry. apply (Zpower_Qpower 2 e He). Qed.

Lemma pow2_inv (e : Z) : (0 <= e)%Z -> 2 ^ (- e) * inject_Z (2 ^ e) == 1.
Proof.
  intros He. rewrite <- pow2_Z by exact He. rewrite <- Qpower_plus by discriminate.
  replace (- e + e)%Z with 0%Z by lia. reflexivity.
Qed.

(** The exponent brackets the number between two powers of two. *)
Lemma exponent2_spec (x : Q) :
  0 < x -> 2 ^ exponent2 x <= x < 2 ^ (1 + exponent2 x).
Proof.
  intros Hx. unfold exponent2. destruct x as [n d]. simpl Qnum. simpl Qden.
  assert (Hn : (0 < n)%Z) by (unfold Qlt in Hx; simpl in Hx; lia).
  destruct (Z.log2_spec n Hn) as [Hn1 Hn2].
  destruct (Z.log2_spec (Zpos d) eq_refl) as [Hd1 Hd2].
  pose proof (Z.log2_nonneg n) as Ha. pose proof (Z.log2_nonneg (Zpos d)) as Hb.
  set (a := Z.log2 n) in *. set (b := Z.log2 (Zpos d)) in *.
  assert (Hq : n # d == inject_Z n * / inject_Z (Zpos d)).
  { unfold Qeq, Qmult, Qinv, inject_Z. simpl. lia. }
  assert (Hdpos : 0 < inject_Z (Zpos d)) by reflexivity.
  assert (Hnq : inject_Z (2 ^ a) <= inject_Z n < inject_Z (2 ^ Z.succ a)).
  { rewrite <- Zle_Qle, <- Zlt_Qlt. lia. }
  assert (Hdq : inject_Z (2 ^ b) <= inject_Z (Zpos d) < inject_Z (2 ^ Z.succ b)).
  { rewrite <- Zle_Qle, <- Zlt_Qlt. lia. }
  rewrite <- !pow2_Z in Hnq, Hdq by lia.
  replace (Z.succ a) with (1 + a)%Z in Hnq by lia.
  replace (Z.succ b) with (1 + b)%Z in Hdq by lia.
  rewrite pow2_succ in Hnq, Hdq.
  assert (Hab : 2 ^ (a - b) * 2 ^ b == 2 ^ a).
  { rewrite <- Qpower_plus by discriminate. replace (a - b + b)%Z with a by lia. reflexivity. }
  assert (Hx' : (n # d) * inject_Z (Zpos d) == inject_Z n).
  { rewrite Hq. field. discriminate. }
  pose proof (pow2_pos (a - b)) as Hp. pose proof (pow2_pos b) as Hpb.
  pose proof (pow2_pos a) as Hpa.
  assert (Hm1 : 2 ^ (1 + (a - b - 1)) == 2 * 2 ^ (a - b - 1)) by apply pow2_succ.
  replace (1 + (a - b - 1))%Z with (a - b)%Z in Hm1 by lia.
  assert (Hp1 : 2 ^ (1 + (a - b)) == 2 * 2 ^ (a - b)) by apply pow2_succ.
  pose proof (pow2_pos (a - b - 1)) as Hpm.
  set (X := n # d) in *. set (D := inject_Z (Zpos d)) in *. set (N := inject_Z n) in *.
  set (A := 2 ^ a) in *. set (B := 2 ^ b) in *. set (P := 2 ^ (a - b)) in *.
  set (P1 := 2 ^ (a - b - 1)) in *.
  destruct (Qle_bool P X) eqn:Hle.
  - apply Qle_bool_iff in Hle. split; [exact Hle |].
    rewrite Hp1. clearbody X D N A B P P1. 
    apply Qnot_le_lt. intros Hc. nra.
  - assert (Hlt : X < P).
    { apply Qnot_le_lt. rewrite <- Qle_bool_iff. congruence. }
    replace (1 + (a - b - 1))%Z with (a - b)%Z by lia. fold P. split; [| exact Hlt].
    fold P1. clearbody X D N A B P P1.
    apply Qnot_lt_le. intros Hc. nra.
Qed.

Lemma round_half_even_near (y : Q) :
  (round_half_even y = Qfloor y \/ round_half_even y = Qfloor y + 1)%Z
  /\ (round_half_even y = Qfloor y -> y - inject_Z (Qfloor y) <= 1 # 2)
  /\ (round_half_even y = (Qfloor y + 1)%Z -> 1 # 2 <= y - inject_Z (Qfloor y)).
Proof.
  unfold round_half_even.
  destruct (y - inject_Z (Qfloor y) ?= 1 # 2) eqn:Hc.
  - apply Qeq_alt in Hc. destruct (Z.even (Qfloor y)).
    + split; [left; reflexivity |]. split; intros; lra.
    + split; [right; reflexivity |]. split; intros; lra.
  - apply Qlt_alt in Hc. split; [left; reflexivity |]. split; intros; [lra | lia].
  - apply Qgt_alt in Hc. split; [right; reflexivity |]. split; intros; [lia | lra].
Qed.

Lemma round_half_even_Z (n : Z) : round_half_even (inject_Z n) = n.
Proof.
  unfold round_half_even. rewrite Qfloor_Z.
  assert (H : (inject_Z n - inject_Z n ?= 1 # 2) = Lt).
  { apply (proj1 (Qlt_alt _ _)). generalize (inject_Z n). intros q. lra. }
  by rewrite H.
Qed.

Lemma round_half_even_monotone (y1 y2 : Q) :
  y1 <= y2 -> (round_half_even y1 <= round_half_even y2)%Z.
Proof.
  intros Hle. pose proof (Qfloor_resp_le _ _ Hle) as Hf.
  destruct (round_half_even_near y1) as ([H1 | H1] & Hlo1 & Hhi1);
    destruct (round_half_even_near y2) as ([H2 | H2] & Hlo2 & Hhi2);
    try lia.
  destruct (Z.eq_dec (Qfloor y1) (Qfloor y2)) as [E | E]; [| lia].
  (* same floor, first rounded up, second rounded down: both are at the tie *)
  specialize (Hhi1 H1). specialize (Hlo2 H2). rewrite E in Hhi1.
  assert (Hy1 : y1 - inject_Z (Qfloor y1) == 1 # 2) by (rewrite E; lra).
  assert (Hy2 : y2 - inject_Z (Qfloor y2) == 1 # 2) by lra.
  unfold round_half_even in H1, H2.
  apply Qeq_alt in Hy1, Hy2. rewrite Hy1 in H1. rewrite Hy2 in H2.
  rewrite E in H1. destruct (Z.even (Qfloor y2)); lia.
Qed.

Lemma fl_positive (x : Q) :
  0 < x ->
  fl x = inject_Z (round_half_even (x / 2 ^ (exponent2 x - 52))) * 2 ^ (exponent2 x - 52).
Proof.
  intros Hx. unfold fl, JsNum.Qabs'.
  assert (H0 : Qeq_bool x 0 = false).
  { destruct (Qeq_bool x 0) eqn:E; [| reflexivity]. apply Qeq_bool_iff in E. lra. }
  assert (H1 : Qle_bool 0 x = true) by (apply Qle_bool_iff; lra).
  by rewrite H0, H1.
Qed.

(** The double nearest to a positive number lies in the closed binade of
    that number. *)
Lemma fl_binade (x : Q) :
  0 < x -> 2 ^ exponent2 x <= fl x <= 2 ^ (1 + exponent2 x).
Proof.
  intros Hx. rewrite (fl_positive x Hx).
  destruct (exponent2_spec x Hx) as [Hlo Hhi].
  set (e := exponent2 x) in *.
  pose proof (pow2_pos (e - 52)) as Hu.
  assert (He : 2 ^ e == inject_Z (2 ^ 52) * 2 ^ (e - 52)).
  { rewrite <- pow2_Z by lia. rewrite <- Qpower_plus by discriminate.
    replace (52 + (e - 52))%Z with e by lia. reflexivity. }
  assert (He1 : 2 ^ (1 + e) == inject_Z (2 ^ 53) * 2 ^ (e - 52)).
  { rewrite <- pow2_Z by lia. rewrite <- Qpower_plus by discriminate.
    replace (53 + (e - 52))%Z with (1 + e)%Z by lia. reflexivity. }
  set (u := 2 ^ (e - 52)) in *.
  assert (Hy : x / u * u == x) by (field; lra).
  set (y := x / u) in *.
  assert (Hylo : inject_Z (2 ^ 52) <= y).
  { apply Qmult_le_r with u; [exact Hu |]. lra. }
  assert (Hyhi : y <= inject_Z (2 ^ 53)).
  { apply Qmult_le_r with u; [exact Hu |]. lra. }
  apply round_half_even_monotone in Hylo, Hyhi.
  rewrite round_half_even_Z in Hylo, Hyhi.
  rewrite Zle_Qle in Hylo, Hyhi.
  rewrite He, He1.
  set (m := inject_Z (round_half_even y)) in *.
  set (A := inject_Z (2 ^ 52)) in *. set (B := inject_Z (2 ^ 53)) in *.
  clearbody m A B u y. split; nra.
Qed.

Lemma fl_zero (x : Q) : x == 0 -> fl x = 0.
Proof. intros H. unfold fl. apply Qeq_bool_iff in H. by rewrite H. Qed.

Lemma fl_nonneg (x : Q) : 0 <= x -> 0 <= fl x.
Proof.
  intros Hx. destruct (Qeq_dec x 0) as [E | E].
  - rewrite (fl_zero x E). lra.
  - assert (Hpos : 0 < x) by (apply Qle_lteq in Hx as [H | H]; [exact H | symmetry in H; contradiction]).
    pose proof (fl_binade x Hpos) as [Hlo _]. pose proof (pow2_pos (exponent2 x)). lra.
Qed.

Lemma fl_nonpos (x : Q) : x <= 0 -> fl x <= 0.
Proof.
  intros Hx. destruct (Qeq_dec x 0) as [E | E].
  - rewrite (fl_zero x E). lra.
  - unfold fl, JsNum.Qabs'.
    assert (H0 : Qeq_bool x 0 = false).
    { destruct (Qeq_bool x 0) eqn:E0; [| reflexivity]. by apply Qeq_bool_iff in E0. }
    assert (H1 : Qle_bool 0 x = false).
    { destruct (Qle_bool 0 x) eqn:E1; [| reflexivity]. apply Qle_bool_iff in E1.
      exfalso. apply E. lra. }
    rewrite H0, H1.
    assert (Hpos : 0 < - x) by lra.
    pose proof (fl_binade (- x) Hpos) as [Hlo _]. rewrite (fl_positive _ Hpos) in Hlo.
    pose proof (pow2_pos (exponent2 (- x))). lra.
Qed.

(** Rounding to the nearest double keeps the order of non-negative
    numbers. *)
Lemma fl_monotone (x y : Q) : 0 <= x -> x <= y -> fl x <= fl y.
Proof.
  intros Hx Hxy. destruct (Qeq_dec x 0) as [E | E].
  { rewrite (fl_zero x E). apply fl_nonneg. lra. }
  assert (Hpx : 0 < x) by (apply Qle_lteq in Hx as [H | H]; [exact H | symmetry in H; contradiction]).
  assert (Hpy : 0 < y) by lra.
  destruct (exponent2_spec x Hpx) as [Hxlo Hxhi].
  destruct (exponent2_spec y Hpy) as [Hylo Hyhi].
  assert (Hee : (exponent2 x <= exponent2 y)%Z).
  { assert (H : 2 ^ exponent2 x < 2 ^ (1 + exponent2 y)) by lra.
    apply Qpower_lt_compat_l_inv in H; [lia | reflexivity]. }
  destruct (Z.eq_dec (exponent2 x) (exponent2 y)) as [Heq | Hne].
  - rewrite (fl_positive x Hpx), (fl_positive y Hpy). rewrite Heq.
    pose proof (pow2_pos (exponent2 y - 52)) as Hu.
    set (u := 2 ^ (exponent2 y - 52)) in *.
    assert (Hdiv : x / u <= y / u).
    { apply Qmult_le_r with u; [exact Hu |].
      assert (x / u * u == x) by (field; lra).
      assert (y / u * u == y) by (field; lra). lra. }
    apply round_half_even_monotone in Hdiv. rewrite Zle_Qle in Hdiv.
    set (mx := inject_Z (round_half_even (x / u))) in *.
    set (my := inject_Z (round_half_even (y / u))) in *.
    clearbody mx my u. nra.
  - pose proof (fl_binade x Hpx) as [_ Hfx]. pose proof (fl_binade y Hpy) as [Hfy _].
    assert (H : 2 ^ (1 + exponent2 x) <= 2 ^ exponent2 y).
    { apply Qpower_le_compat_l; [lia | discriminate]. }
    lra.
Qed.
End DoubleRounding.

(** ** Rounding to significant digits *)

Section Rounding.
Import JsNum.
Local Open Scope Q_scope.











End Rounding.

(** ** Queries: timing helpers *)

Section QueriesProperties.
Import JsNum Queries.




End QueriesProperties.

(** ** Queries: the collections *)

Section CollectionProperties.
Import Queries.

Lemma alloc_fresh (st : gmap loc (gmap string QueryData)) o :
  st !! (alloc st o).2 = None.
Proof.
  unfold alloc; simpl. apply not_elem_of_dom. apply is_fresh.
Qed.

Lemma alloc_lookup_new (st : gmap loc (gmap string QueryData)) o :
  (alloc st o).1 !! (alloc st o).2 = Some o.
Proof. unfold alloc; simpl. apply lookup_insert_eq. Qed.

Lemma alloc_lookup_old (st : gmap loc (gmap string QueryData)) o l :
  l ≠ (alloc st o).2 -> (alloc st o).1 !! l = st !! l.
Proof. intros Hne. unfold alloc in *; simpl in *. by rewrite lookup_insert_ne. Qed.

Lemma copy_then_alter (st : gmap loc (gmap string QueryData)) l props f :
  st !! l = Some props ->
  returns_copy st l
    (Some (alter f (alloc st props).2 (alloc st props).1, (alloc st props).2))
    (f props).
Proof.
  intros Hl.
  exists (alter f (alloc st props).2 (alloc st props).1), (alloc st props).2.
  pose proof (alloc_fresh st props) as Hfresh.
  repeat split.
  - intros Heq. rewrite Heq in Hfresh. congruence.
  - exact Hfresh.
  - rewrite lookup_alter_eq, alloc_lookup_new. reflexivity.
  - intros l0 Hne. rewrite lookup_alter_ne by congruence.
    by apply alloc_lookup_old.
Qed.

(** C10.  [createQuery], [deleteQuery] and [setCompare] return a
    reference different from the one they are given, and leave the
    collection they are given (and every other object) with the entries
    it had; the new collection has the entry added or removed. *)
Theorem collections_not_mutated
    (st : gmap loc (gmap string QueryData)) (l : loc)
    (props : gmap string QueryData) (q : QueryData) (isCompared : bool) :
  st !! l = Some props ->
  returns_copy st l (createQuery st l q) (<[key q := q]> props)
  /\ returns_copy st l (deleteQuery st l q) (delete (key q) props)
  /\ returns_copy st l (setCompare st l q isCompared)
       (if isCompared then <[key q := q]> props else delete (key q) props).
Proof.
  intros Hl. split; [| split].
  - unfold createQuery. rewrite Hl; simpl.
    exists (alloc st (<[key q:=q]> props)).1, (alloc st (<[key q:=q]> props)).2.
    pose proof (alloc_fresh st (<[key q:=q]> props)) as Hfresh.
    repeat split.
    + intros Heq. rewrite Heq in Hfresh. congruence.
    + exact Hfresh.
    + apply alloc_lookup_new.
    + intros l0 Hne. by apply alloc_lookup_old.
  - unfold deleteQuery. rewrite Hl; simpl.
    by apply (copy_then_alter st l props (delete (key q))).
  - unfold setCompare. rewrite Hl; simpl.
    destruct isCompared; simpl.
    + by apply (copy_then_alter st l props (insert (key q) q)).
    + by apply (copy_then_alter st l props (delete (key q))).
Qed.

Lemma collections_not_mutated_witness :
  returns_copy oneEmpty 1%positive (createQuery oneEmpty 1%positive firstQuery)
    (<[key firstQuery := firstQuery]> ∅)
  /\ returns_copy oneEmpty 1%positive (deleteQuery oneEmpty 1%positive firstQuery)
       (delete (key firstQuery) ∅)
  /\ returns_copy oneEmpty 1%positive (setCompare oneEmpty 1%positive firstQuery true)
       (<[key firstQuery := firstQuery]> ∅).
Proof.
  apply (collections_not_mutated oneEmpty 1%positive ∅ firstQuery true).
  reflexivity.
Defined.

End CollectionProperties.

(** ** The dummy-data generator: values by type *)

Section GeneratorArithmetic.
Import DummyData.

Lemma fraction_range w : 0 <= fraction w <= 2 ^ 53 - 1.
Proof.
  unfold fraction. pose proof (Z.mod_pos_bound (draws w (cursor w)) (2 ^ 53) eq_refl). lia.
Qed.

Lemma Math_random_run w :
  Math_random w = (Val (Qmake (fraction w) (2 ^ 53)), advance w).
Proof. reflexivity. Qed.

Lemma getRandomInt_run min max w :
  getRandomInt min max w = (Val (drawnInt (fraction w) min max), advance w).
Proof. reflexivity. Qed.

Lemma draw_scaled (k1 k2 n : Z) :
  0 <= k1 -> k1 <= k2 -> 0 <= n ->
  (0 <= (k1 # 2 ^ 53) * inject_Z n <= (k2 # 2 ^ 53) * inject_Z n)%Q.
Proof.
  intros H0 Hk Hn. unfold Qle, Qmult, inject_Z; simpl.
  rewrite !Pos.mul_1_r, !Z.mul_1_r. split; nia.
Qed.

(** A larger draw gives no smaller integer, for a range of non-negative
    integers. *)
Lemma drawnInt_monotone (k1 k2 min max : Z) :
  0 <= k1 -> k1 <= k2 -> 0 <= min -> min <= max ->
  drawnInt k1 min max <= drawnInt k2 min max.
Proof.
  intros H0 Hk Hmin Hmax. unfold drawnInt.
  destruct (draw_scaled k1 k2 (max - min) H0 Hk ltac:(lia)) as [Hlo Hle].
  apply Qfloor_resp_le.
  pose proof (fl_nonneg _ Hlo) as Hnn.
  pose proof (fl_monotone _ _ Hlo Hle) as Hm.
  assert (Hq : (0 <= inject_Z min)%Q).
  { change 0%Q with (inject_Z 0). rewrite <- Zle_Qle. exact Hmin. }
  apply fl_monotone; lra.
Qed.

(** [getRandomInt] lies between what the least and the greatest draw
    give. *)
Lemma getRandomInt_ends min max w :
  0 <= min -> min <= max ->
  exists v,
    getRandomInt min max w = (Val v, advance w)
    /\ drawnInt 0 min max <= v <= drawnInt (2 ^ 53 - 1) min max.
Proof.
  intros Hmin Hmax. rewrite getRandomInt_run. eexists; split; [reflexivity |].
  pose proof (fraction_range w) as [H0 H1].
  split; apply drawnInt_monotone; lia.
Qed.

Lemma drawnLength_monotone (k1 k2 len : Z) :
  0 <= k1 -> k1 <= k2 -> 0 <= len ->
  drawnLength k1 len <= drawnLength k2 len.
Proof.
  intros H0 Hk Hlen. unfold drawnLength.
  destruct (draw_scaled k1 k2 len H0 Hk Hlen) as [Hlo Hle].
  apply Qfloor_resp_le. by apply fl_monotone.
Qed.

Lemma drawnLength_negative (k len : Z) :
  0 <= k -> len < 0 -> drawnLength k len <= 0.
Proof.
  intros Hk Hlen. unfold drawnLength.
  assert (Hle : ((k # 2 ^ 53) * inject_Z len <= 0)%Q).
  { unfold Qle, Qmult, inject_Z; simpl. rewrite !Z.mul_1_r. nia. }
  apply fl_nonpos in Hle. apply Qfloor_resp_le in Hle.
  change 0%Q with (inject_Z 0) in Hle. by rewrite Qfloor_Z in Hle.
Qed.

Lemma range_check (P : Z -> bool) (lo : Z) (n : nat) :
  forallb (fun i => P (lo + Z.of_nat i)) (seq 0 n) = true ->
  forall z, lo <= z < lo + Z.of_nat n -> P z = true.
Proof.
  intros Hall z Hz. rewrite forallb_forall in Hall.
  specialize (Hall (Z.to_nat (z - lo))).
  replace (lo + Z.of_nat (Z.to_nat (z - lo))) with z in Hall by lia.
  apply Hall. apply in_seq. lia.
Qed.

Lemma year_four_digits y :
  1500 <= y <= 2020 -> String.length (JsNum.string_of_Z y) = 4%nat.
Proof.
  intros Hy. apply Nat.eqb_eq.
  apply (range_check (fun z => Nat.eqb (String.length (JsNum.string_of_Z z)) 4)
           1500 521); [vm_compute; reflexivity | lia].
Qed.

Lemma pad2_two_digits n :
  0 <= n < 100 -> String.length (pad2 n) = 2%nat.
Proof.
  intros Hn. apply Nat.eqb_eq.
  apply (range_check (fun z => Nat.eqb (String.length (pad2 z)) 2) 0 100);
    [vm_compute; reflexivity | lia].
Qed.

End GeneratorArithmetic.

Section ValuesByType.
Import DummyData.

Lemma append_snoc (a : string) (c : ascii) (s : string) :
  (a ++ String c "") ++ s = a ++ String c s.
Proof.
  induction a as [| x a IH]; [reflexivity |].
  change (String x ((a ++ String c "") ++ s) = String x (a ++ String c s)).
  by rewrite IH.
Qed.

Lemma append_assoc (a b c : string) : (a ++ b) ++ c = a ++ b ++ c.
Proof.
  induction a as [| x a IH]; [reflexivity |].
  change (String x ((a ++ b) ++ c) = String x (a ++ b ++ c)). by rewrite IH.
Qed.

Lemma append_empty (a : string) : a ++ "" = a.
Proof.
  induction a as [| x a IH]; [reflexivity |].
  change (String x (a ++ "") = String x a). by rewrite IH.
Qed.

Lemma alphaChar_run w :
  exists c, faker_random_alphaChar w = (Val c, advance w) /\ is_alnum c = true.
Proof.
  unfold faker_random_alphaChar, bind, draw, ret. eexists; split; [reflexivity |].
  set (k := draws w (cursor w) mod 36).
  assert (Hk : 0 <= k < 36) by (apply Z.mod_pos_bound; lia).
  apply (range_check
           (fun z => is_alnum match String.get (Z.to_nat z) alphabet with
                              | Some c => c
                              | None => "0"%char
                              end) 0 36); [vm_compute; reflexivity | lia].
Qed.

(** [faker.random.alphaNumeric] appends exactly [count] alphanumeric
    characters. *)
Lemma alphaNumeric_loop_run count : forall acc w,
  exists s w',
    alphaNumeric_loop count acc w = (Val (acc ++ s), w')
    /\ String.length s = count /\ alnum_string s.
Proof.
  induction count as [| count IH]; intros acc w; simpl.
  - exists "", w. rewrite append_empty. repeat split. constructor.
  - destruct (alphaChar_run w) as (c & Hc & Hal).
    destruct (IH (acc ++ String c "") (advance w)) as (s & w' & Hrun & Hlen & Hs).
    exists (String c s), w'. unfold bind. rewrite Hc, Hrun, append_snoc.
    repeat split; [simpl; congruence |].
    constructor; assumption.
Qed.

Lemma alphaNumeric_run count w :
  exists s w',
    faker_random_alphaNumeric count w = (Val s, w')
    /\ String.length s = Z.to_nat count /\ alnum_string s.
Proof.
  unfold faker_random_alphaNumeric.
  destruct (alphaNumeric_loop_run (Z.to_nat count) "" w) as (s & w' & H & Hl & Ha).
  exists s, w'. auto.
Qed.

(** C5, as the code has it.  A [character varying] value is an
    alphanumeric string between two apostrophes; its length is 3 when the
    maximum length is undefined, 0, or at least 3, it is drawn at random
    below the maximum length, never equal to it, when that is 1 or 2, and
    it is 0 when the maximum length is negative. *)
Theorem varchar_length (col : ColumnObj) (w : World) :
  data_type col = "character varying" ->
  exists str,
    (generateDataByType col w).1 = Val (CStr ("'" ++ str ++ "'"))
    /\ alnum_string str
    /\ varchar_length_ok (character_maximum_length col) (String.length str).
Proof.
  intros Hty. unfold generateDataByType. rewrite Hty.
  cbn [String.eqb Ascii.eqb Bool.eqb]. unfold varchar_length_ok.
  destruct (character_maximum_length col) as [len |].
  - destruct (negb (len =? 0) && (len <? 3)) eqn:Hshort.
    + unfold bind at 1. unfold bind at 1. rewrite Math_random_run.
      unfold ret at 1, Math_floor.
      change (Qfloor (Double.fl ((fraction w # 2 ^ 53) * inject_Z len)))
        with (drawnLength (fraction w) len).
      destruct (alphaNumeric_run (drawnLength (fraction w) len) (advance w))
        as (s & w' & Hrun & Hlen & Hs).
      unfold bind. rewrite Hrun. exists s. repeat split; [assumption |].
      rewrite Hlen. pose proof (fraction_range w) as [Hf0 Hf1].
      destruct (0 <? len) eqn:Hpos; simpl.
      * assert ((len <? 3) = true) as -> by (destruct (len =? 0); simpl in *; congruence).
        pose proof (drawnLength_monotone 0 (fraction w) len ltac:(lia) Hf0 ltac:(lia)) as Hlo.
        pose proof (drawnLength_monotone (fraction w) (2 ^ 53 - 1) len Hf0 Hf1 ltac:(lia))
          as Hhi.
        assert (Hends : drawnLength 0 len = 0 /\ drawnLength (2 ^ 53 - 1) len = len - 1).
        { assert (len = 1 \/ len = 2) as [-> | ->] by lia; vm_compute; split; reflexivity. }
        destruct Hends as [E0 E1]. rewrite E0 in Hlo. rewrite E1 in Hhi. lia.
      * assert ((len <? 0) = true) as -> by lia.
        pose proof (drawnLength_negative (fraction w) len Hf0 ltac:(lia)). lia.
    + unfold bind at 1. unfold bind at 1. unfold ret at 1.
      destruct (alphaNumeric_run 3 w) as (s & w' & Hrun & Hlen & Hs).
      unfold bind. rewrite Hrun. exists s. repeat split; [assumption |].
      rewrite Hlen.
      assert ((0 <? len) && (len <? 3) = false) as -> by lia.
      destruct (len <? 0) eqn:Hneg; [lia | reflexivity].
  - unfold bind at 1. unfold bind at 1. unfold ret at 1.
    destruct (alphaNumeric_run 3 w) as (s & w' & Hrun & Hlen & Hs).
    unfold bind. rewrite Hrun. exists s. repeat split; [assumption |].
    rewrite Hlen. reflexivity.
Qed.

Lemma varchar_length_witness :
  exists str,
    (generateDataByType (varcharColumn (Some 2)) (constantWorld (2 ^ 52))).1
    = Val (CStr ("'" ++ str ++ "'"))
    /\ alnum_string str
    /\ varchar_length_ok (Some 2) (String.length str).
Proof.
  apply (varchar_length (varcharColumn (Some 2)) (constantWorld (2 ^ 52))).
  reflexivity.
Defined.

(** C5 as stated fails: with a maximum length of 2 the string between
    the apostrophes does not have length 2. *)
Lemma varchar_length_not_max :
  ~ exists str,
      (generateDataByType (varcharColumn (Some 2)) (constantWorld (2 ^ 52))).1
      = Val (CStr ("'" ++ str ++ "'"))
      /\ String.length str = 2%nat.
Proof.
  intros (str & Hrun & Hlen).
  vm_compute in Hrun.
  destruct str as [| a [| b [| c str]]]; simpl in Hlen; discriminate.
Qed.

Lemma pad2_zero_padded n :
  0 <= n < 100 ->
  pad2 n = if n <? 10 then "0" ++ JsNum.string_of_Z n else JsNum.string_of_Z n.
Proof.
  intros Hn.
  apply (range_check
           (fun z => String.eqb (pad2 z)
              (if z <? 10 then "0" ++ JsNum.string_of_Z z else JsNum.string_of_Z z))
           0 100) in Hn; [| vm_compute; reflexivity].
  by apply String.eqb_eq in Hn.
Qed.

(** C6.  A [date] value is the text YYYY/MM/DD between two apostrophes:
    a year of four digits between 1500 and 2020, a month between 1 and 12
    and a day between 1 and 28, both written with two digits, a leading
    zero below ten. *)
Theorem date_format (col : ColumnObj) (w : World) :
  data_type col = "date" ->
  exists year month day,
    (generateDataByType col w).1
    = Val (CStr ("'" ++ JsNum.string_of_Z year ++ "/" ++ pad2 month ++ "/"
                 ++ pad2 day ++ "'"))
    /\ 1500 <= year <= 2020 /\ 1 <= month <= 12 /\ 1 <= day <= 28
    /\ String.length (JsNum.string_of_Z year) = 4%nat
    /\ String.length (pad2 month) = 2%nat
    /\ String.length (pad2 day) = 2%nat
    /\ pad2 month = (if month <? 10 then "0" ++ JsNum.string_of_Z month
                     else JsNum.string_of_Z month)
    /\ pad2 day = (if day <? 10 then "0" ++ JsNum.string_of_Z day
                   else JsNum.string_of_Z day).
Proof.
  intros Hty. unfold generateDataByType. rewrite Hty.
  cbn [String.eqb Ascii.eqb Bool.eqb]. unfold bind.
  destruct (getRandomInt_ends 1500 2020 w) as (y & Hy & Hyr); [lia | lia |].
  destruct (getRandomInt_ends 1 13 (advance w)) as (m & Hm & Hmr); [lia | lia |].
  destruct (getRandomInt_ends 1 29 (advance (advance w))) as (d & Hd & Hdr);
    [lia | lia |].
  assert (Ey : drawnInt 0 1500 2020 = 1500 /\ drawnInt (2 ^ 53 - 1) 1500 2020 = 2020)
    by (vm_compute; split; reflexivity).
  assert (Em : drawnInt 0 1 13 = 1 /\ drawnInt (2 ^ 53 - 1) 1 13 = 12)
    by (vm_compute; split; reflexivity).
  assert (Ed : drawnInt 0 1 29 = 1 /\ drawnInt (2 ^ 53 - 1) 1 29 = 28)
    by (vm_compute; split; reflexivity).
  destruct Ey as [Ey0 Ey1]. destruct Em as [Em0 Em1]. destruct Ed as [Ed0 Ed1].
  rewrite Ey0, Ey1 in Hyr. rewrite Em0, Em1 in Hmr. rewrite Ed0, Ed1 in Hdr.
  rewrite Hy, Hm, Hd. exists y, m, d.
  split.
  { unfold ret, quote. simpl fst. do 2 f_equal.
    rewrite !append_assoc. reflexivity. }
  repeat split; try lia.
  - apply year_four_digits; lia.
  - apply pad2_two_digits; lia.
  - apply pad2_two_digits; lia.
  - apply pad2_zero_padded; lia.
  - apply pad2_zero_padded; lia.
Qed.

Lemma date_format_witness :
  exists year month day,
    (generateDataByType dateColumn (constantWorld (2 ^ 52))).1
    = Val (CStr ("'" ++ JsNum.string_of_Z year ++ "/" ++ pad2 month ++ "/"
                 ++ pad2 day ++ "'"))
    /\ 1500 <= year <= 2020 /\ 1 <= month <= 12 /\ 1 <= day <= 28
    /\ String.length (JsNum.string_of_Z year) = 4%nat
    /\ String.length (pad2 month) = 2%nat
    /\ String.length (pad2 day) = 2%nat
    /\ pad2 month = (if month <? 10 then "0" ++ JsNum.string_of_Z month
                     else JsNum.string_of_Z month)
    /\ pad2 day = (if day <? 10 then "0" ++ JsNum.string_of_Z day
                   else JsNum.string_of_Z day).
Proof.
  apply (date_format dateColumn (constantWorld (2 ^ 52))).
  reflexivity.
Defined.

End ValuesByType.

(** ** The dummy-data generator: rows and columns *)

Section RowsAndColumns.
Import DummyData.
Local Open Scope list_scope.

Lemma frames_ret {A} (a : A) : frames (ret a).
Proof. intros w r w' H. inversion H. reflexivity. Qed.

Lemma frames_throw {A} e : frames (@throw World A e).
Proof. intros w r w' H. inversion H. reflexivity. Qed.

Lemma frames_draw : frames draw.
Proof. intros w r w' H. inversion H. reflexivity. Qed.

Lemma frames_bind {A B} (c : DummyData.M A) (k : A -> DummyData.M B) :
  frames c -> (forall a, frames (k a)) -> frames (bind c k).
Proof.
  intros Hc Hk w r w' H. unfold bind in H.
  destruct (c w) as [[a | e] w1] eqn:Hcw.
  - apply Hk in H. apply Hc in Hcw. congruence.
  - inversion H; subst. by apply Hc in Hcw.
Qed.

Lemma frames_attempt {A} (c : DummyData.M A) : frames c -> frames (attempt c).
Proof.
  intros Hc w r w' H. unfold attempt, try_catch, bind, ret in H.
  destruct (c w) as [[a | e] w1] eqn:Hcw; inversion H; subst; by apply Hc in Hcw.
Qed.

Lemma frames_alphaNumeric_loop count : forall acc, frames (alphaNumeric_loop count acc).
Proof.
  induction count as [| count IH]; intros acc; simpl.
  - apply frames_ret.
  - apply frames_bind; [| intros c; apply IH].
    apply frames_bind; [apply frames_draw | intros k; apply frames_ret].
Qed.

Create HintDb frames.
Hint Resolve frames_ret frames_throw frames_draw frames_alphaNumeric_loop : frames.

Ltac frame :=
  repeat first
    [ apply frames_bind; [| intros ?]
    | apply frames_attempt
    | solve [auto with frames] ].

Lemma frames_generateDataByType col : frames (generateDataByType col).
Proof.
  unfold generateDataByType, getRandomInt, Math_random, faker_random_boolean,
    faker_random_number, faker_random_alphaNumeric.
  repeat match goal with
         | |- frames (if ?b then _ else _) => destruct b
         end; frame.
  destruct (character_maximum_length col) as [len |]; [| frame].
  destruct (negb (len =? 0) && (len <? 3)); frame.
Qed.

Lemma bernoulli_run rows : forall w,
  exists kept w',
    bernoulli rows w = (Val kept, w')
    /\ tables w' = tables w
    /\ forall r, r ∈ kept -> r ∈ rows.
Proof.
  induction rows as [| r rows IH]; intros w; simpl.
  - exists [], w. repeat split. intros r Hr. inversion Hr.
  - unfold bind, draw.
    destruct (IH (mkWorld (draws w) (S (cursor w)) (tables w)))
      as (kept & w' & Hrun & Htab & Hsub).
    rewrite Hrun. unfold ret.
    eexists _, w'. split; [reflexivity |]. split; [exact Htab |].
    intros x Hx. destruct (Z.odd (draws w (cursor w))).
    + apply elem_of_cons in Hx as [-> | Hx]; [left | right; auto].
    + right; auto.
Qed.

(** What the statement of a foreign-key column can return. *)
Lemma db_query_sample_run col tab w r w' :
  db_query_sample col tab w = (r, w') ->
  tables w' = tables w
  /\ forall sample, r = Val sample ->
       sample = []
       \/ exists t row,
            tables w !! tab = Some t /\ row ∈ trows t
            /\ sample = [select1 col row].
Proof.
  unfold db_query_sample. intros H.
  destruct (tables w !! tab) as [t |] eqn:Htab.
  - destruct (bool_decide (col ∈ tcolumns t)).
    + unfold bind in H.
      destruct (bernoulli_run (trows t) w) as (kept & w1 & Hrun & Hfr & Hsub).
      rewrite Hrun in H. unfold ret in H. inversion H; subst. split; [assumption |].
      intros sample Hs. inversion Hs; subst.
      destruct kept as [| row kept]; [left; reflexivity |].
      right. exists t, row. repeat split. apply Hsub. left.
    + inversion H; subst. split; [reflexivity |]. intros sample Hs. discriminate.
  - inversion H; subst. split; [reflexivity |]. intros sample Hs. discriminate.
Qed.

Lemma collectName_fold tableInfo : forall acc,
  fold_left collectName tableInfo acc
  = acc ++ map column_name (List.filter nonPrimary tableInfo).
Proof.
  induction tableInfo as [| c rest IH]; intros acc; simpl.
  - by rewrite app_nil_r.
  - rewrite IH. unfold collectName, nonPrimary.
    destruct (isNot c "PRIMARY KEY"); simpl; [by rewrite <- app_assoc | reflexivity].
Qed.

Lemma fillRow_run columns : forall row w r w',
  fillRow columns row w = (Val (inr r), w') ->
  tables w' = tables w
  /\ exists cells,
       r = row ++ cells
       /\ Forall2 (generated_for (tables w)) (List.filter nonPrimary columns) cells.
Proof.
  induction columns as [| col rest IH]; intros row w r w' H; simpl in H.
  - inversion H; subst. split; [reflexivity |]. exists []. split; [by rewrite app_nil_r | constructor].
  - unfold nonPrimary at 1. simpl.
    destruct (isNot col "FOREIGN KEY") eqn:Hfk; simpl in H.
    + destruct (isNot col "PRIMARY KEY") eqn:Hpk; simpl in H.
      * unfold bind in H.
        destruct (generateDataByType col w) as [[v | e] w1] eqn:Hgen; [| discriminate].
        pose proof (frames_generateDataByType col _ _ _ Hgen) as Hfr.
        apply IH in H as (Htab & cells & -> & Hcells).
        split; [congruence |]. exists (v :: cells). split; [by rewrite <- app_assoc |].
        constructor; [| by rewrite <- Hfr].
        unfold generated_for. unfold isNot in Hfk.
        destruct (String.eqb (constraint_type col) "FOREIGN KEY"); [discriminate |].
        exists w. by rewrite Hgen.
      * unfold isNot in Hfk.
        destruct (String.eqb (constraint_type col) "FOREIGN KEY") eqn:Hfk2; [discriminate |].
        by apply IH in H.
    + unfold isNot in Hfk.
      destruct (String.eqb (constraint_type col) "FOREIGN KEY") eqn:Hfk2; [| discriminate].
      assert (Hpk : isNot col "PRIMARY KEY" = true).
      { unfold isNot. apply String.eqb_eq in Hfk2. by rewrite Hfk2. }
      rewrite Hpk. unfold bind, attempt, try_catch, bind, ret in H.
      destruct (db_query_sample (foreign_column col) (foreign_table col) w)
        as [[sample | e] w1] eqn:Hq; [| discriminate].
      apply db_query_sample_run in Hq as (Hfr & Hsample).
      destruct (Hsample sample eq_refl) as [-> | (t & frow & Ht & Hin & ->)];
        [discriminate |].
      apply IH in H as (Htab & cells & -> & Hcells).
      split; [congruence |].
      exists (get_id (select1 (foreign_column col) frow) :: cells).
      split; [by rewrite <- app_assoc |].
      constructor; [| by rewrite <- Hfr].
      unfold generated_for. rewrite Hfk2. eauto.
Qed.

Lemma fillRows_run tableInfo todo : forall columnNames rows w names rows' w',
  fillRows tableInfo todo columnNames rows w = (Val (Records names rows'), w') ->
  names = columnNames
  /\ exists new,
       rows' = rows ++ new
       /\ length new = todo
       /\ Forall (Forall2 (generated_for (tables w)) (List.filter nonPrimary tableInfo)) new.
Proof.
  induction todo as [| todo IH]; intros columnNames rows w names rows' w' H; simpl in H.
  - inversion H; subst. split; [reflexivity |]. exists [].
    split; [by rewrite app_nil_r |]. split; [reflexivity | constructor].
  - unfold bind in H.
    destruct (fillRow tableInfo [] w) as [[[err | row] | e] w1] eqn:Hrow;
      [discriminate | | discriminate].
    apply fillRow_run in Hrow as (Hfr & cells & -> & Hcells). simpl in H.
    apply IH in H as (-> & new & -> & Hlen & Hnew).
    split; [reflexivity |]. exists (cells :: new).
    split; [by rewrite <- app_assoc |]. split; [simpl; congruence |].
    constructor; [assumption | by rewrite <- Hfr].
Qed.

(** C4.  When [generateDummyData] yields records, the column names are
    the names of the columns that are not primary keys, in the table's
    order; there are as many rows as requested; and every row has one
    cell for each such column, in the same order, and none for a primary
    key, so its length is that of the column names. *)
Theorem generated_rows_match_columns
    (tableInfo : list ColumnObj) (numRows : Z) (w w' : World)
    (columnNames : list string) (rows : list (list Cell)) :
  generateDummyData tableInfo numRows w = (Val (Records columnNames rows), w') ->
  columnNames = map column_name (List.filter nonPrimary tableInfo)
  /\ length rows = Z.to_nat numRows
  /\ Forall (fun row =>
               length row = length columnNames
               /\ Forall2 (generated_for (tables w))
                    (List.filter nonPrimary tableInfo) row) rows.
Proof.
  unfold generateDummyData. intros H.
  apply fillRows_run in H as (-> & new & -> & Hlen & Hnew).
  rewrite collectName_fold. simpl.
  split; [reflexivity |]. split; [assumption |].
  eapply Forall_impl; [exact Hnew |].
  intros row Hrow. split; [| exact Hrow].
  rewrite length_map. symmetry. by eapply Forall2_length.
Qed.

End RowsAndColumns.

Section GeneratorExamples.
Import DummyData.
Local Open Scope list_scope.

Lemma generated_rows_match_columns_witness :
  ["name"; "age"; "film"] = map column_name (List.filter nonPrimary usersTable)
  /\ length usersRows = Z.to_nat 2
  /\ Forall (fun row =>
               length row = length ["name"; "age"; "film"]
               /\ Forall2 (generated_for (tables (filmsWorld "_id")))
                    (List.filter nonPrimary usersTable) row) usersRows.
Proof.
  apply (generated_rows_match_columns usersTable 2 (filmsWorld "_id")
           (generateDummyData usersTable 2 (filmsWorld "_id")).2).
  vm_compute. reflexivity.
Defined.

(** A row stops at a foreign key whose referenced table is empty: the
    function returns the error instead of a row. *)
Lemma foreign_key_empty_table col rest row w t :
  constraint_type col = "FOREIGN KEY" ->
  tables w !! foreign_table col = Some t ->
  foreign_column col ∈ tcolumns t ->
  trows t = [] ->
  fillRow (col :: rest) row w
  = (Val (inl (new_Error "There was an error while retrieving a valid foreign key.")), w).
Proof.
  intros Hfk Htab Hcol Hrows. simpl. unfold isNot. rewrite Hfk.
  cbn [String.eqb Ascii.eqb Bool.eqb negb andb].
  unfold bind, attempt, try_catch, bind, db_query_sample. rewrite Htab.
  rewrite bool_decide_eq_true_2 by assumption.
  rewrite Hrows. reflexivity.
Qed.

(** The cell is the key of the sampled row when the referenced column
    is called [_id]. *)
Example foreign_key_named_id :
  (generateDummyData [filmColumn "_id"] 1 (filmsWorld "_id")).1
  = Val (Records ["film"] [[CNum 7]]).
Proof. vm_compute. reflexivity. Qed.

(** C3 fails on the code.  The row is read at ['_id'] whatever the
    referenced column: for a foreign key to [films.id], whose sampled
    row has [id = 7], the generated cell is [undefined], not 7. *)
Theorem foreign_key_cell_undefined :
  (db_query_sample "id" "films" (filmsWorld "id")).1
  = Val [ {[ "id" := CNum 7 ]} ]
  /\ (generateDummyData [filmColumn "id"] 1 (filmsWorld "id")).1
     = Val (Records ["film"] [[CUndefined]]).
Proof. split; vm_compute; reflexivity. Qed.

End GeneratorExamples.

(** ** The IPC handlers *)

Section ChannelsProperties.
Import Channels.
Local Open Scope list_scope.

Ltac run :=
  cbv [duplicate_db import_db run_query promExecute db_query db_connectToDB
       db_getLists fs_unlinkSync send log set_databases set_connection fail_if
       bind ret throw try_catch try_finally get modify second_rows
       createDBFunc dropDBFunc runSQLFunc runTARFunc runFullCopyFunc
       runHollowCopyFunc].

Ltac reduce := cbn [fst snd databases calls sent connection].

Lemma not_in_after_drop (name : string) (dbs : list string) :
  name ∉ filter (fun d => d ≠ name) dbs.
Proof. intros Hin. apply list_elem_of_filter in Hin as [Hne _]. by apply Hne. Qed.

(** C1, as the code has it.  In [duplicate-db], when the dump and the
    creation succeed and the restore fails, the handler sends
    [DROP DATABASE newName] after the failed restore and before it
    rejects, and it signals completion.  When the server carries that
    drop out, the handler rejects with "Failed to populate newly created
    database" and [newName] is not among the databases; when the server
    refuses it, the handler rejects with the server's error and
    [newName] stays. *)
Theorem duplicate_restore_failure
    (env : Env) (newName sourceDb : string) (withData : bool)
    (e : JsError) (w : World) :
  exec_fault env (dumpCommand env newName sourceDb withData) = None ->
  query_fault env (CreateDatabase newName) = None ->
  newName ∉ databases w ->
  exec_fault env (RunSQL newName (tempFilePathOf env newName)) = Some e ->
  calls (duplicate_db env newName sourceDb withData w).2
  = calls w ++ [Exec (dumpCommand env newName sourceDb withData);
                Query (CreateDatabase newName);
                Exec (RunSQL newName (tempFilePathOf env newName));
                Query (DropDatabase newName);
                Unlink (tempFilePathOf env newName)]
  /\ (exists err, (duplicate_db env newName sourceDb withData w).1 = Exn err)
  /\ last (sent (duplicate_db env newName sourceDb withData w).2) = Some AsyncComplete
  /\ (query_fault env (DropDatabase newName) = None ->
      connection w ≠ newName ->
      (duplicate_db env newName sourceDb withData w).1 = Exn restoreFailure
      /\ newName ∉ databases (duplicate_db env newName sourceDb withData w).2)
  /\ (forall refusal,
        query_fault env (DropDatabase newName) = Some refusal
        \/ (query_fault env (DropDatabase newName) = None
            /\ connection w = newName
            /\ refusal = mkError "error"
                 ("database " ++ newName ++ " is being accessed by other users")) ->
        (duplicate_db env newName sourceDb withData w).1 = Exn refusal
        /\ newName ∈ databases (duplicate_db env newName sourceDb withData w).2).
Proof.
  intros Hdump Hcreate Hnew Hrestore.
  assert (Hin : bool_decide (newName ∈ newName :: databases w) = true)
    by (apply bool_decide_eq_true_2; left).
  apply (bool_decide_eq_false_2 _) in Hnew.
  run. fold (dumpCommand env newName sourceDb withData). rewrite Hdump. reduce.
  rewrite Hcreate. reduce. rewrite Hnew. reduce.
  rewrite Hrestore. reduce.
  destruct (query_fault env (DropDatabase newName)) as [e1 |]; reduce;
    [| rewrite Hin; reduce;
       destruct (String.eqb_spec (connection w) newName) as [Hconn | Hconn]; reduce];
    (destruct (unlink_fault env (tempFilePathOf env newName)); reduce;
     rewrite <- ?app_assoc; simpl;
     (split; [reflexivity |]); (split; [eauto |]);
     (split; [by rewrite ?last_snoc, ?last_app |]); split).
  all: try (intros; discriminate).
  all: try (intros; contradiction).
  all: try (intros _ _; split; [reflexivity | apply not_in_after_drop]).
  all: intros refusal [Hr | (Hr & Hc & ->)];
    try discriminate; try contradiction;
    try (inversion Hr; subst refusal); (split; [reflexivity | left]).
Qed.

Lemma duplicate_restore_failure_witness :
  calls (duplicate_db restoreFails "copy" "source" true oneDatabase).2
  = [] ++ [Exec (dumpCommand restoreFails "copy" "source" true);
           Query (CreateDatabase "copy");
           Exec (RunSQL "copy" (tempFilePathOf restoreFails "copy"));
           Query (DropDatabase "copy");
           Unlink (tempFilePathOf restoreFails "copy")]
  /\ (exists err, (duplicate_db restoreFails "copy" "source" true oneDatabase).1 = Exn err)
  /\ last (sent (duplicate_db restoreFails "copy" "source" true oneDatabase).2)
     = Some AsyncComplete
  /\ (query_fault restoreFails (DropDatabase "copy") = None ->
      connection oneDatabase ≠ "copy" ->
      (duplicate_db restoreFails "copy" "source" true oneDatabase).1 = Exn restoreFailure
      /\ "copy" ∉ databases (duplicate_db restoreFails "copy" "source" true oneDatabase).2)
  /\ (forall refusal,
        query_fault restoreFails (DropDatabase "copy") = Some refusal
        \/ (query_fault restoreFails (DropDatabase "copy") = None
            /\ connection oneDatabase = "copy"
            /\ refusal = mkError "error"
                 ("database " ++ "copy" ++ " is being accessed by other users")) ->
        (duplicate_db restoreFails "copy" "source" true oneDatabase).1 = Exn refusal
        /\ "copy" ∈ databases (duplicate_db restoreFails "copy" "source" true oneDatabase).2).
Proof.
  apply (duplicate_restore_failure restoreFails "copy" "source" true
           (mkError "Error" "Command failed") oneDatabase).
  - reflexivity.
  - reflexivity.
  - apply (bool_decide_unpack _). vm_compute. exact I.
  - reflexivity.
Defined.

(** C1 as stated fails: with the restore failing and the server refusing
    the drop, [duplicate-db] rejects and the new database is still
    there. *)
Lemma duplicate_drop_refused_leaves_database :
  (duplicate_db dropRefused "copy" "source" true oneDatabase).1
  = Exn (mkError "error" "permission denied")
  /\ "copy" ∈ databases (duplicate_db dropRefused "copy" "source" true oneDatabase).2.
Proof. split; [reflexivity | left]. Qed.

(** When the server refuses the compensating drop, its error is the one
    surfaced and the new database stays. *)
Lemma duplicate_drop_refused
    (env : Env) (newName sourceDb : string) (withData : bool)
    (e e1 : JsError) (w : World) :
  exec_fault env (dumpCommand env newName sourceDb withData) = None ->
  query_fault env (CreateDatabase newName) = None ->
  newName ∉ databases w ->
  exec_fault env (RunSQL newName (tempFilePathOf env newName)) = Some e ->
  query_fault env (DropDatabase newName) = Some e1 ->
  (duplicate_db env newName sourceDb withData w).1 = Exn e1
  /\ newName ∈ databases (duplicate_db env newName sourceDb withData w).2.
Proof.
  intros Hdump Hcreate Hnew Hrestore Hdrop.
  apply (bool_decide_eq_false_2 _) in Hnew.
  run. fold (dumpCommand env newName sourceDb withData). rewrite Hdump. reduce.
  rewrite Hcreate. reduce. rewrite Hnew. reduce.
  rewrite Hrestore. reduce. rewrite Hdrop. reduce.
  destruct (unlink_fault env (tempFilePathOf env newName)); reduce;
    (split; [reflexivity | left]).
Qed.

(** [import-db] on a file of another extension: the database is
    created, the handler rejects, and no [DROP DATABASE] is sent. *)
Lemma import_unsupported_run (env : Env) (newDbName filePath : string) (w : World) :
  query_fault env (CreateDatabase newDbName) = None ->
  newDbName ∉ databases w ->
  unsupported filePath = true ->
  import_db env newDbName filePath w
  = (Exn invalidExtension,
     mkWorld (newDbName :: databases w) (connection w)
       (sent w ++ [AsyncStarted; AsyncComplete])
       (calls w ++ [Query (CreateDatabase newDbName)])).
Proof.
  intros Hcreate Hnew Hext. unfold unsupported in Hext.
  apply (bool_decide_eq_false_2 _) in Hnew.
  run. rewrite Hcreate. reduce. rewrite Hnew. reduce.
  rewrite Hext. reduce. rewrite <- !app_assoc. reflexivity.
Qed.

(** The other failure of [import-db], a restore that fails, does send
    the drop: the created database is gone when the handler rejects,
    the server having carried the drop out. *)
Lemma import_restore_failure
    (env : Env) (newDbName filePath : string) (e : JsError) (w : World) :
  query_fault env (CreateDatabase newDbName) = None ->
  newDbName ∉ databases w ->
  unsupported filePath = false ->
  (forall cmd, cmd = RunSQL newDbName filePath \/ cmd = RunTAR newDbName filePath ->
               exec_fault env cmd = Some e) ->
  query_fault env (DropDatabase newDbName) = None ->
  connection w ≠ newDbName ->
  (import_db env newDbName filePath w).1 = Exn (new_Error "Failed to populate database")
  /\ (newDbName ∉ databases (import_db env newDbName filePath w).2)
  /\ In (Query (DropDatabase newDbName)) (calls (import_db env newDbName filePath w).2).
Proof.
  intros Hcreate Hnew Hext Hrestore Hdrop Hconn. unfold unsupported in Hext.
  assert (Hin : bool_decide (newDbName ∈ newDbName :: databases w) = true)
    by (apply bool_decide_eq_true_2; left).
  apply (bool_decide_eq_false_2 _) in Hnew.
  apply String.eqb_neq in Hconn.
  run. rewrite Hcreate. reduce. rewrite Hnew. reduce.
  rewrite Hext. reduce.
  destruct (String.eqb _ ".sql");
    rewrite Hrestore by auto; reduce; rewrite Hdrop; reduce; rewrite Hin; reduce;
    rewrite Hconn; reduce;
    (split; [reflexivity |]); (split; [apply not_in_after_drop |]);
    rewrite !in_app_iff; simpl; auto.
Qed.

(** C2 fails on the code.  Importing [backup.csv] as [newdb] rejects
    with "Invalid file extension", but the only statement sent is the
    [CREATE DATABASE]: no drop follows, and [newdb] is among the
    databases when the handler has rejected. *)
Theorem import_unsupported_leaves_database :
  (import_db allGood "newdb" "backup.csv" oneDatabase).1 = Exn invalidExtension
  /\ calls (import_db allGood "newdb" "backup.csv" oneDatabase).2
     = [Query (CreateDatabase "newdb")]
  /\ "newdb" ∈ databases (import_db allGood "newdb" "backup.csv" oneDatabase).2.
Proof.
  rewrite (import_unsupported_run allGood "newdb" "backup.csv" oneDatabase).
  - repeat split. left.
  - reflexivity.
  - apply (bool_decide_unpack _). vm_compute. exact I.
  - vm_compute. reflexivity.
Qed.




End ChannelsProperties.


(** ** Queries: keys and entries of the collections *)

Section CollectionEntries.
Import Queries.

Lemma append_cancel_l (a x y : string) : a ++ x = a ++ y -> x = y.
Proof.
  induction a as [| c a IH]; intros H; [exact H |].
  apply IH. change (String c (a ++ x) = String c (a ++ y)) in H. congruence.
Qed.

Lemma list_of_append (a b : string) :
  list_ascii_of_string (a ++ b)
  = (list_ascii_of_string a ++ list_ascii_of_string b)%list.
Proof.
  induction a as [| c a IH]; [reflexivity |].
  change (c :: list_ascii_of_string (a ++ b)
          = c :: (list_ascii_of_string a ++ list_ascii_of_string b)%list).
  by rewrite IH.
Qed.

Lemma append_cancel_r (b x y : string) : x ++ b = y ++ b -> x = y.
Proof.
  intros H. apply (f_equal list_ascii_of_string) in H.
  rewrite !list_of_append in H. apply app_inv_tail in H.
  apply (f_equal string_of_list_ascii) in H.
  by rewrite !string_of_list_ascii_of_string in H.
Qed.

(** Two queries with the same label have the same key only if they have
    the same database, and two queries with the same database only if
    they have the same label. *)
Theorem key_separates (q1 q2 : QueryData) :
  key q1 = key q2 ->
  (label q1 = label q2 -> db q1 = db q2)
  /\ (db q1 = db q2 -> label q1 = label q2).
Proof.
  unfold key. intros H. split; intros E; rewrite E in H.
  - apply append_cancel_l in H. apply append_cancel_l in H.
    by apply append_cancel_l in H.
  - apply append_cancel_l in H. by apply append_cancel_r in H.
Qed.

Lemma key_separates_witness :
  (label (named "a" "x") = label (named "a" "x") -> db (named "a" "x") = db (named "a" "x"))
  /\ (db (named "a" "x") = db (named "a" "x")
      -> label (named "a" "x") = label (named "a" "x")).
Proof.
  apply (key_separates (named "a" "x") (named "a" "x")). reflexivity.
Defined.

(** The key does not separate every pair of queries: a label that holds
    the text " db:" gives the key of another label and database, for
    [key] as for [keyFromData]. *)
Theorem key_collides (a b c : string) :
  keyFromData (a ++ " db:" ++ b) c = keyFromData a (b ++ " db:" ++ c)
  /\ key (named (a ++ " db:" ++ b) c) = key (named a (b ++ " db:" ++ c))
  /\ named (a ++ " db:" ++ b) c <> named a (b ++ " db:" ++ c).
Proof.
  assert (E : "label:" ++ (a ++ " db:" ++ b) ++ " db:" ++ c
              = "label:" ++ a ++ " db:" ++ b ++ " db:" ++ c).
  { f_equal. by rewrite append_assoc. }
  split; [exact E |]. split; [exact E |].
  intros H. apply (f_equal db) in H. simpl in H.
  apply (f_equal String.length) in H.
  assert (L : forall x y, String.length (x ++ y) = (String.length x + String.length y)%nat).
  { intros x y. induction x as [| ch x IH]; [reflexivity |].
    change (S (String.length (x ++ y)) = S (String.length x + String.length y)).
    by rewrite IH. }
  rewrite !L in H. simpl in H. lia.
Qed.

Lemma returned_createQuery (st : gmap loc (gmap string QueryData)) l props q :
  st !! l = Some props ->
  returned (createQuery st l q) = Some (<[key q := q]> props).
Proof.
  intros Hl. unfold createQuery. rewrite Hl; simpl. apply lookup_insert_eq.
Qed.

Lemma returned_deleteQuery (st : gmap loc (gmap string QueryData)) l props q :
  st !! l = Some props ->
  returned (deleteQuery st l q) = Some (delete (key q) props).
Proof.
  intros Hl. unfold deleteQuery. rewrite Hl; simpl.
  by rewrite lookup_alter_eq, lookup_insert_eq.
Qed.

(** In the collection that [createQuery] returns, the key of the new
    query leads to it, every other key leads where it led before, and
    there is one more entry unless the key was already in use. *)
Theorem createQuery_entries
    (st : gmap loc (gmap string QueryData)) (l : loc)
    (props : gmap string QueryData) (q : QueryData) :
  st !! l = Some props ->
  exists c,
    returned (createQuery st l q) = Some c
    /\ c !! key q = Some q
    /\ (forall k, k ≠ key q -> c !! k = props !! k)
    /\ size c = match props !! key q with
                | Some _ => size props
                | None => S (size props)
                end.
Proof.
  intros Hl. exists (<[key q := q]> props).
  split; [by apply returned_createQuery |].
  split; [apply lookup_insert_eq |].
  split; [intros k Hk; by apply lookup_insert_ne |].
  destruct (props !! key q) as [old |] eqn:Hk.
  - apply map_size_insert_Some. by exists old.
  - by apply map_size_insert_None.
Qed.

Lemma createQuery_entries_witness :
  exists c,
    returned (createQuery oneEmpty 1%positive firstQuery) = Some c
    /\ c !! key firstQuery = Some firstQuery
    /\ (forall k, k ≠ key firstQuery -> c !! k = (∅ : gmap string QueryData) !! k)
    /\ size c = match (∅ : gmap string QueryData) !! key firstQuery with
                | Some _ => size (∅ : gmap string QueryData)
                | None => S (size (∅ : gmap string QueryData))
                end.
Proof.
  apply (createQuery_entries oneEmpty 1%positive ∅ firstQuery). reflexivity.
Defined.

(** In the collection that [deleteQuery] returns, the key of the query
    leads nowhere and every other key leads where it led before; when the
    key was not in use, the entries are those of the collection given. *)
Theorem deleteQuery_entries
    (st : gmap loc (gmap string QueryData)) (l : loc)
    (props : gmap string QueryData) (q : QueryData) :
  st !! l = Some props ->
  exists c,
    returned (deleteQuery st l q) = Some c
    /\ c !! key q = None
    /\ (forall k, k ≠ key q -> c !! k = props !! k)
    /\ (props !! key q = None -> c = props)
    /\ (is_Some (props !! key q) -> S (size c) = size props).
Proof.
  intros Hl. exists (delete (key q) props).
  split; [by apply returned_deleteQuery |].
  split; [apply lookup_delete_eq |].
  split; [intros k Hk; by apply lookup_delete_ne |].
  split; [apply delete_id |].
  intros [old Hold]. rewrite map_size_delete_Some by (by exists old).
  assert (size props ≠ 0%nat); [| lia].
  intros Hz. apply map_size_empty_iff in Hz. rewrite Hz in Hold.
  by rewrite lookup_empty in Hold.
Qed.

Lemma deleteQuery_entries_witness :
  exists c,
    returned (deleteQuery oneEmpty 1%positive firstQuery) = Some c
    /\ c !! key firstQuery = None
    /\ (forall k, k ≠ key firstQuery -> c !! k = (∅ : gmap string QueryData) !! k)
    /\ ((∅ : gmap string QueryData) !! key firstQuery = None -> c = ∅)
    /\ (is_Some ((∅ : gmap string QueryData) !! key firstQuery)
        -> S (size c) = size (∅ : gmap string QueryData)).
Proof.
  apply (deleteQuery_entries oneEmpty 1%positive ∅ firstQuery). reflexivity.
Defined.

(** [setCompare] with [true] is [createQuery] and with [false] is
    [deleteQuery]: the same reference and the same store. *)
Theorem setCompare_is_create_or_delete
    (st : gmap loc (gmap string QueryData)) (l : loc) (q : QueryData) (isCompared : bool) :
  setCompare st l q isCompared
  = if isCompared then createQuery st l q else deleteQuery st l q.
Proof.
  unfold setCompare, createQuery, deleteQuery.
  destruct (st !! l) as [props |]; simpl; [| by destruct isCompared].
  destruct isCompared; simpl; [| reflexivity].
  unfold alloc. by rewrite alter_insert_eq.
Qed.

(** Deleting from the collection that [createQuery] returned the query
    just created gives back the entries of the first collection, when
    the key was not in use there; and the first collection still has
    them. *)
Theorem create_then_delete
    (st : gmap loc (gmap string QueryData)) (l : loc)
    (props : gmap string QueryData) (q : QueryData) :
  st !! l = Some props ->
  props !! key q = None ->
  exists st1 l1,
    createQuery st l q = Some (st1, l1)
    /\ returned (deleteQuery st1 l1 q) = Some props
    /\ (forall st2 l2, deleteQuery st1 l1 q = Some (st2, l2) ->
         st2 !! l = Some props /\ st2 !! l1 = Some (<[key q := q]> props)).
Proof.
  intros Hl Hk.
  pose proof (alloc_fresh st (<[key q := q]> props)) as Hfresh.
  pose proof (alloc_lookup_new st (<[key q := q]> props)) as Hnew.
  exists (alloc st (<[key q := q]> props)).1, (alloc st (<[key q := q]> props)).2.
  set (st1 := (alloc st (<[key q := q]> props)).1) in *.
  set (l1 := (alloc st (<[key q := q]> props)).2) in *.
  assert (Hne : l ≠ l1) by (intros E; rewrite E in Hl; congruence).
  assert (Hold : st1 !! l = Some props).
  { unfold st1. rewrite alloc_lookup_old by exact Hne. exact Hl. }
  split; [unfold createQuery; rewrite Hl; reflexivity |].
  split.
  - rewrite (returned_deleteQuery st1 l1 (<[key q := q]> props) q Hnew).
    by rewrite delete_insert_id.
  - intros st2 l2 Hdel. unfold deleteQuery in Hdel. rewrite Hnew in Hdel.
    simpl in Hdel. inversion Hdel; subst st2 l2; clear Hdel.
    pose proof (alloc_fresh st1 (<[key q := q]> props)) as Hfresh2.
    unfold alloc in Hfresh2; simpl in Hfresh2.
    set (l2 := fresh (dom st1)) in *.
    assert (l ≠ l2) by (intros E; rewrite E in Hold; congruence).
    assert (l1 ≠ l2) by (intros E; rewrite E in Hnew; congruence).
    rewrite !lookup_alter_ne, !lookup_insert_ne by congruence. auto.
Qed.

Lemma create_then_delete_witness :
  exists st1 l1,
    createQuery oneEmpty 1%positive firstQuery = Some (st1, l1)
    /\ returned (deleteQuery st1 l1 firstQuery) = Some ∅
    /\ (forall st2 l2, deleteQuery st1 l1 firstQuery = Some (st2, l2) ->
         st2 !! 1%positive = Some ∅
         /\ st2 !! l1 = Some (<[key firstQuery := firstQuery]> ∅)).
Proof.
  apply (create_then_delete oneEmpty 1%positive ∅ firstQuery); reflexivity.
Defined.

End CollectionEntries.

(** ** The dummy-data generator: the other types and the failures *)

Section GeneratorCases.
Import DummyData.
Local Open Scope list_scope.

(** The year of a generated date can be 2020, the maximum given to
    [getRandomInt]: for the two largest draws, [1 - 2^-53] and
    [1 - 2^-52], the product and the sum, being doubles, round up to
    2020. *)
Theorem date_year_reaches_2020 (col : ColumnObj) (w : World) :
  data_type col = "date" ->
  2 ^ 53 - 2 <= fraction w ->
  exists rest,
    (generateDataByType col w).1 = Val (CStr ("'2020/" ++ rest)).
Proof.
  intros Hty Hdraw. unfold generateDataByType. rewrite Hty.
  cbn [String.eqb Ascii.eqb Bool.eqb]. unfold bind.
  rewrite !getRandomInt_run.
  assert (E : drawnInt (fraction w) 1500 2020 = 2020).
  { pose proof (fraction_range w) as [_ Hmax].
    assert (fraction w = 2 ^ 53 - 2 \/ fraction w = 2 ^ 53 - 1) as [-> | ->] by lia;
      vm_compute; reflexivity. }
  rewrite E. unfold ret, quote. simpl fst.
  change (JsNum.string_of_Z 2020) with "2020".
  eexists. do 2 f_equal.
Qed.

Lemma date_year_reaches_2020_witness :
  exists rest,
    (generateDataByType dateColumn (constantWorld (2 ^ 53 - 1))).1
    = Val (CStr ("'2020/" ++ rest)).
Proof.
  apply (date_year_reaches_2020 dateColumn (constantWorld (2 ^ 53 - 1))).
  - reflexivity.
  - vm_compute. discriminate.
Defined.

(** A value of type [smallint], [integer] or [bigint] is a number
    between the bounds of the type, both included. *)
Theorem integer_types_in_range (col : ColumnObj) (w : World) (lo hi : Z) :
  integerBounds (data_type col) = Some (lo, hi) ->
  exists n, (generateDataByType col w).1 = Val (CNum n) /\ lo <= n <= hi.
Proof.
  unfold integerBounds, generateDataByType. intros Hb.
  destruct (String.eqb (data_type col) "smallint");
    [| destruct (String.eqb (data_type col) "integer");
       [| destruct (String.eqb (data_type col) "bigint"); [| discriminate]]];
    inversion Hb; subst lo hi;
    unfold bind, faker_random_number, bind, draw, ret; simpl fst;
    (eexists; split; [reflexivity |]);
    match goal with
    | |- _ <= _ + ?k mod ?m <= _ =>
        pose proof (Z.mod_pos_bound k m ltac:(lia)); lia
    end.
Qed.

Lemma integer_types_in_range_witness :
  exists n,
    (generateDataByType (typedColumn "smallint") (constantWorld 70000)).1 = Val (CNum n)
    /\ -32768 <= n <= 32767.
Proof.
  apply (integer_types_in_range (typedColumn "smallint") (constantWorld 70000)).
  reflexivity.
Defined.

(** A value of type [boolean] is one of the two quoted tokens. *)
Theorem boolean_token (col : ColumnObj) (w : World) :
  data_type col = "boolean" ->
  (generateDataByType col w).1 = Val (CStr "'true'")
  \/ (generateDataByType col w).1 = Val (CStr "'false'").
Proof.
  intros Hty. unfold generateDataByType. rewrite Hty.
  cbn [String.eqb Ascii.eqb Bool.eqb].
  unfold bind, faker_random_boolean, bind, faker_random_number, bind, draw, ret.
  simpl fst. destruct (negb _); [left | right]; reflexivity.
Qed.

Lemma boolean_token_witness :
  (generateDataByType (typedColumn "boolean") (constantWorld 1)).1 = Val (CStr "'true'")
  \/ (generateDataByType (typedColumn "boolean") (constantWorld 1)).1
     = Val (CStr "'false'").
Proof. apply (boolean_token (typedColumn "boolean") (constantWorld 1)). reflexivity. Defined.

(** The [character varying] case always returns. *)
Lemma varchar_cases (col : ColumnObj) (w : World) :
  exists s w',
    (let! length :=
       match character_maximum_length col with
       | Some len =>
           if negb (len =? 0) && (len <? 3)
           then let! r := Math_random in
               ret (Math_floor (Double.fl (r * inject_Z len))%Q)
           else ret 3
       | None => ret 3
       end in
     let! str := faker_random_alphaNumeric length in
     ret (CStr (quote str))) w = (Val s, w').
Proof.
  destruct (character_maximum_length col) as [len |];
    [destruct (negb (len =? 0) && (len <? 3)) |].
  - unfold bind at 1. unfold bind at 1. rewrite Math_random_run. unfold ret at 1.
    match goal with
    | |- context [faker_random_alphaNumeric ?n] =>
        destruct (alphaNumeric_run n (advance w)) as (s & w' & Hrun & _)
    end.
    unfold bind. rewrite Hrun. unfold ret. eauto.
  - unfold bind at 1. unfold ret at 1.
    destruct (alphaNumeric_run 3 w) as (s & w' & Hrun & _).
    unfold bind. rewrite Hrun. unfold ret. eauto.
  - unfold bind at 1. unfold ret at 1.
    destruct (alphaNumeric_run 3 w) as (s & w' & Hrun & _).
    unfold bind. rewrite Hrun. unfold ret. eauto.
Qed.

Lemma generateDataByType_cases (col : ColumnObj) (w : World) :
  if supportedType (data_type col)
  then exists v w', generateDataByType col w = (Val v, w')
  else generateDataByType col w = (Exn unhandled, w).
Proof.
  unfold supportedType, generateDataByType. simpl existsb.
  destruct (String.eqb (data_type col) "smallint"); simpl orb.
  { unfold bind, faker_random_number, bind, draw, ret. eauto. }
  destruct (String.eqb (data_type col) "integer"); simpl orb.
  { unfold bind, faker_random_number, bind, draw, ret. eauto. }
  destruct (String.eqb (data_type col) "bigint"); simpl orb.
  { unfold bind, faker_random_number, bind, draw, ret. eauto. }
  destruct (String.eqb (data_type col) "character varying"); simpl orb.
  { destruct (varchar_cases col w) as (s & w' & H). eauto. }
  destruct (String.eqb (data_type col) "date"); simpl orb.
  { unfold bind. rewrite !getRandomInt_run. unfold ret. eauto. }
  destruct (String.eqb (data_type col) "boolean"); simpl orb.
  { unfold bind, faker_random_boolean, bind, faker_random_number, bind, draw, ret. eauto. }
  reflexivity.
Qed.

(** [generateDataByType] returns a value for the six types it has a
    case for; for any other type it throws "unhandled data type" and
    takes no draw. *)
Theorem types_handled (col : ColumnObj) (w : World) :
  if supportedType (data_type col)
  then exists v w', generateDataByType col w = (Val v, w')
  else generateDataByType col w = (Exn unhandled, w).
Proof. exact (generateDataByType_cases col w). Qed.

Lemma generateDataByType_throws col w e w' :
  generateDataByType col w = (Exn e, w') -> e = unhandled.
Proof.
  intros H. pose proof (generateDataByType_cases col w) as Hc.
  destruct (supportedType (data_type col)).
  - destruct Hc as (v & w1 & Hv). congruence.
  - congruence.
Qed.

Lemma fillRow_throws columns : forall row w e w',
  fillRow columns row w = (Exn e, w') -> e = unhandled.
Proof.
  induction columns as [| col rest IH]; intros row w e w' H; simpl in H.
  - discriminate.
  - destruct (isNot col "FOREIGN KEY" && isNot col "PRIMARY KEY").
    + unfold bind in H.
      destruct (generateDataByType col w) as [[v | e1] w1] eqn:Hgen.
      * by apply IH in H.
      * inversion H; subst. by apply generateDataByType_throws in Hgen.
    + destruct (String.eqb (constraint_type col) "FOREIGN KEY"); [| by apply IH in H].
      unfold bind, attempt, try_catch, bind, ret in H.
      destruct (db_query_sample (foreign_column col) (foreign_table col) w)
        as [[[| first more] | e1] w1]; try discriminate.
      by apply IH in H.
Qed.

(** The promise of [generateDummyData] is rejected for one reason only,
    a column of a type without a case; a failure of the foreign-key
    statement is never thrown on. *)
Theorem rejects_only_unhandled
    (tableInfo : list ColumnObj) (numRows : Z) (w w' : World) (e : JsError) :
  generateDummyData tableInfo numRows w = (Exn e, w') -> e = unhandled.
Proof.
  unfold generateDummyData. generalize (fold_left collectName tableInfo []).
  generalize (@nil (list Cell)). generalize w.
  induction (Z.to_nat numRows) as [| todo IH]; intros w0 rows names H; simpl in H.
  - discriminate.
  - unfold bind in H.
    destruct (fillRow tableInfo [] w0) as [[[err | row] | e1] w1] eqn:Hrow.
    + discriminate.
    + by apply IH in H.
    + inversion H; subst. by apply fillRow_throws in Hrow.
Qed.

Lemma rejects_only_unhandled_witness :
  new_Error "unhandled data type" = unhandled.
Proof.
  apply (rejects_only_unhandled [typedColumn "json"] 1 (constantWorld 0) (constantWorld 0)).
  reflexivity.
Defined.

(** With no row requested, the records are the column names alone: no
    column's type is looked at, no draw is taken and no statement is
    sent. *)
Theorem no_rows_requested (tableInfo : list ColumnObj) (numRows : Z) (w : World) :
  numRows <= 0 ->
  generateDummyData tableInfo numRows w
  = (Val (Records (map column_name (List.filter nonPrimary tableInfo)) []), w).
Proof.
  intros Hn. unfold generateDummyData.
  replace (Z.to_nat numRows) with 0%nat by lia.
  simpl. by rewrite collectName_fold.
Qed.

Lemma no_rows_requested_witness :
  generateDummyData [typedColumn "json"] 0 (constantWorld 0)
  = (Val (Records (map column_name (List.filter nonPrimary [typedColumn "json"])) []),
     constantWorld 0).
Proof. apply (no_rows_requested [typedColumn "json"] 0 (constantWorld 0)). lia. Defined.

Lemma fillRow_unhandled columns :
  Forall (fun c => isNot c "FOREIGN KEY" = true) columns ->
  Exists (fun c => nonPrimary c = true /\ supportedType (data_type c) = false) columns ->
  forall row w, exists w', fillRow columns row w = (Exn unhandled, w').
Proof.
  induction columns as [| col rest IH]; intros Hfk Hex row w.
  - inversion Hex.
  - inversion Hfk as [| ? ? Hcol Hrest]; subst. cbn [fillRow]. rewrite Hcol. simpl andb.
    pose proof (generateDataByType_cases col w) as Hc.
    destruct (isNot col "PRIMARY KEY") eqn:Hpk; cbn [andb].
    + unfold bind. destruct (supportedType (data_type col)) eqn:Hs.
      * destruct Hc as (v & w1 & ->).
        apply Exists_cons in Hex as [[_ Hbad] | Hex]; [congruence |].
        by apply IH.
      * rewrite Hc. eauto.
    + unfold isNot in Hcol.
      destruct (String.eqb (constraint_type col) "FOREIGN KEY"); [discriminate |].
      apply Exists_cons in Hex as [[Hnp _] | Hex];
        [unfold nonPrimary in Hnp; congruence |].
      by apply IH.
Qed.

(** In a table without foreign keys, one column outside the primary key
    whose type has no case rejects the whole generation, as soon as a row
    is requested. *)
Theorem unsupported_type_rejects
    (tableInfo : list ColumnObj) (numRows : Z) (w : World) :
  Forall (fun c => isNot c "FOREIGN KEY" = true) tableInfo ->
  Exists (fun c => nonPrimary c = true /\ supportedType (data_type c) = false) tableInfo ->
  0 < numRows ->
  (generateDummyData tableInfo numRows w).1 = Exn unhandled.
Proof.
  intros Hfk Hex Hn. unfold generateDummyData.
  destruct (Z.to_nat numRows) as [| todo] eqn:Hto; [lia |].
  simpl. unfold bind.
  destruct (fillRow_unhandled tableInfo Hfk Hex [] w) as (w' & ->). reflexivity.
Qed.

Lemma unsupported_type_rejects_witness :
  (generateDummyData [typedColumn "integer"; typedColumn "json"] 3 (constantWorld 0)).1
  = Exn unhandled.
Proof.
  apply (unsupported_type_rejects [typedColumn "integer"; typedColumn "json"] 3
           (constantWorld 0)).
  - repeat constructor.
  - right. left. split; reflexivity.
  - lia.
Defined.

Lemma Forall2_In_l {A B} (P : A -> B -> Prop) (l : list A) (k : list B) (x : A) :
  Forall2 P l k -> In x l -> exists y, P x y.
Proof.
  induction 1 as [| a b l k Hab _ IH]; intros Hin; [inversion Hin |].
  destruct Hin as [-> | Hin]; eauto.
Qed.

(** A foreign key whose referenced table is unknown or has no row stops
    the generation: whatever the table's other columns, no records come
    out once a row is requested. *)
Theorem foreign_key_needs_candidates
    (tableInfo : list ColumnObj) (numRows : Z) (w w' : World) (col : ColumnObj)
    (names : list string) (rows : list (list Cell)) :
  In col tableInfo ->
  constraint_type col = "FOREIGN KEY" ->
  (forall t, tables w !! foreign_table col = Some t -> trows t = []) ->
  0 < numRows ->
  generateDummyData tableInfo numRows w <> (Val (Records names rows), w').
Proof.
  intros Hin Hfk Hempty Hn Hrun. unfold generateDummyData in Hrun.
  apply fillRows_run in Hrun as (_ & new & _ & Hlen & Hnew).
  destruct new as [| row new]; [simpl in Hlen; lia |].
  inversion Hnew as [| ? ? Hrow _]; subst.
  assert (Hcol : In col (List.filter nonPrimary tableInfo)).
  { apply filter_In. split; [exact Hin |]. unfold nonPrimary, isNot. by rewrite Hfk. }
  destruct (Forall2_In_l _ _ _ _ Hrow Hcol) as (v & Hv).
  unfold generated_for in Hv. rewrite Hfk in Hv.
  cbn [String.eqb Ascii.eqb Bool.eqb] in Hv.
  destruct Hv as (t & frow & Ht & Hfrow & _).
  rewrite (Hempty t Ht) in Hfrow. inversion Hfrow.
Qed.

Lemma foreign_key_needs_candidates_witness :
  generateDummyData usersTable 1 (constantWorld 1)
  <> (Val (Records [] []), constantWorld 1).
Proof.
  apply (foreign_key_needs_candidates usersTable 1 (constantWorld 1) (constantWorld 1)
           (filmColumn "_id")).
  - right. right. right. left. reflexivity.
  - reflexivity.
  - intros t Ht. vm_compute in Ht. discriminate.
  - lia.
Defined.

Lemma get_id_select1 (column : string) (row : gmap string Cell) :
  get_id (select1 column row)
  = if String.eqb column "_id" then get_id row else CUndefined.
Proof.
  unfold get_id, select1. destruct (String.eqb_spec column "_id") as [-> | Hne].
  - destruct (row !! "_id") as [v |] eqn:Hv.
    + by rewrite lookup_singleton_eq.
    + by rewrite lookup_empty.
  - destruct (row !! column) as [v |].
    + by rewrite lookup_singleton_ne.
    + by rewrite lookup_empty.
Qed.

(** In the records generated, the cell of a foreign key that refers to a
    column called [_id] is the [_id] of a row of the referenced table; the
    cell of a foreign key that refers to a column of another name is
    [undefined]. *)
Theorem foreign_key_cells
    (tableInfo : list ColumnObj) (numRows : Z) (w w' : World)
    (names : list string) (rows : list (list Cell)) :
  generateDummyData tableInfo numRows w = (Val (Records names rows), w') ->
  Forall (Forall2 (fun c v =>
            constraint_type c = "FOREIGN KEY" ->
            if String.eqb (foreign_column c) "_id"
            then exists t row,
                   tables w !! foreign_table c = Some t /\ row ∈ trows t
                   /\ v = get_id row
            else v = CUndefined)
          (List.filter nonPrimary tableInfo)) rows.
Proof.
  unfold generateDummyData. intros Hrun.
  apply fillRows_run in Hrun as (_ & new & -> & _ & Hnew). simpl.
  eapply Forall_impl; [exact Hnew |]. intros row Hrow.
  eapply Forall2_impl; [exact Hrow |]. intros c v Hgen Hfk.
  unfold generated_for in Hgen. rewrite Hfk in Hgen.
  cbn [String.eqb Ascii.eqb Bool.eqb] in Hgen.
  destruct Hgen as (t & frow & Ht & Hfrow & ->).
  rewrite get_id_select1.
  destruct (String.eqb (foreign_column c) "_id"); eauto.
Qed.

Lemma foreign_key_cells_witness :
  Forall (Forall2 (fun c v =>
            constraint_type c = "FOREIGN KEY" ->
            if String.eqb (foreign_column c) "_id"
            then exists t row,
                   tables (filmsWorld "_id") !! foreign_table c = Some t
                   /\ row ∈ trows t /\ v = get_id row
            else v = CUndefined)
          (List.filter nonPrimary usersTable)) usersRows.
Proof.
  apply (foreign_key_cells usersTable 2 (filmsWorld "_id")
           (generateDummyData usersTable 2 (filmsWorld "_id")).2 ["name"; "age"; "film"]).
  vm_compute. reflexivity.
Defined.

End GeneratorCases.

(** ** The IPC handlers: the other paths *)

Section HandlerPaths.
Import Channels.
Local Open Scope list_scope.

Ltac steps :=
  cbv [duplicate_db import_db run_query select_db drop_db promExecute db_query
       db_connectToDB db_getLists fs_unlinkSync send log set_databases
       set_connection fail_if bind ret throw try_catch try_finally get modify
       second_rows createDBFunc dropDBFunc runSQLFunc runTARFunc runFullCopyFunc
       runHollowCopyFunc].

Ltac fields :=
  cbn [fst snd databases calls sent connection exec_fault query_fault
       statement_reply connect_fault getLists_fault unlink_fault homedir].

Ltac split_on t := destruct t eqn:?; fields.

Ltac branches :=
  repeat match goal with
         | |- context [exec_fault ?e ?c] => split_on (exec_fault e c)
         | |- context [query_fault ?e ?c] => split_on (query_fault e c)
         | |- context [connect_fault ?e ?c] => split_on (connect_fault e c)
         | |- context [unlink_fault ?e ?c] => split_on (unlink_fault e c)
         | |- context [getLists_fault ?e] => split_on (getLists_fault e)
         | |- context [bool_decide ?P] => split_on (bool_decide P)
         | |- context [String.eqb (connection ?w) ?n] =>
             split_on (String.eqb (connection w) n)
         | |- context [String.eqb EmptyString ?n] => split_on (String.eqb EmptyString n)
         end.

Ltac no_marker :=
  split; (intros Hin; repeat (apply elem_of_cons in Hin as [Hin | Hin]; [discriminate Hin |]);
          by apply elem_of_nil in Hin).

Ltac close_bracket :=
  unfold bracketed; rewrite <- ?app_assoc; simpl;
  first [ exists []; split; [reflexivity | no_marker]
        | eexists [_]; split; [reflexivity | no_marker]
        | eexists [_; _]; split; [reflexivity | no_marker] ].

(** [duplicate-db], [import-db], [drop-db] and [select-db] send
    "async-started" first and "async-complete" last, once each, on every
    path: success, failure of any step, failure of the cleanup. *)
Theorem requests_are_bracketed
    (env : Env) (name other : string) (flag : bool) (w : World) :
  bracketed (sent w) (sent (duplicate_db env name other flag w).2)
  /\ bracketed (sent w) (sent (import_db env name other w).2)
  /\ bracketed (sent w) (sent (drop_db env name flag w).2)
  /\ bracketed (sent w) (sent (select_db env name w).2).
Proof.
  split; [| split; [| split]].
  - steps. destruct flag; fields; branches; close_bracket.
  - steps.
    destruct (String.eqb (NodePath.toLowerCase (NodePath.extname other)) ".sql");
      destruct (String.eqb (NodePath.toLowerCase (NodePath.extname other)) ".tar");
      cbn [negb andb]; fields; branches; close_bracket.
  - steps. destruct flag; fields; branches; close_bracket.
  - steps. fields. branches; close_bracket.
Qed.

(** When the dump fails, [duplicate-db] rejects with "Failed to dump
    ... to temp file at ...": no database is created, and the only other
    call is the removal of the temporary file. *)
Theorem duplicate_dump_failure
    (env : Env) (newName sourceDb : string) (withData : bool)
    (e : JsError) (w : World) :
  exec_fault env (dumpCommand env newName sourceDb withData) = Some e ->
  (duplicate_db env newName sourceDb withData w).1
  = Exn (dumpFailure env newName sourceDb)
  /\ databases (duplicate_db env newName sourceDb withData w).2 = databases w
  /\ calls (duplicate_db env newName sourceDb withData w).2
     = calls w ++ [Exec (dumpCommand env newName sourceDb withData);
                   Unlink (tempFilePathOf env newName)].
Proof.
  intros Hdump. steps. fold (dumpCommand env newName sourceDb withData).
  rewrite Hdump. fields. branches; rewrite <- ?app_assoc; repeat split.
Qed.

Lemma duplicate_dump_failure_witness :
  (duplicate_db dumpFails "copy" "source" false oneDatabase).1
  = Exn (dumpFailure dumpFails "copy" "source")
  /\ databases (duplicate_db dumpFails "copy" "source" false oneDatabase).2
     = databases oneDatabase
  /\ calls (duplicate_db dumpFails "copy" "source" false oneDatabase).2
     = calls oneDatabase ++ [Exec (dumpCommand dumpFails "copy" "source" false);
                             Unlink (tempFilePathOf dumpFails "copy")].
Proof.
  apply (duplicate_dump_failure dumpFails "copy" "source" false
           (mkError "Error" "Command failed") oneDatabase).
  reflexivity.
Defined.

(** When the new database cannot be created, because the server refuses
    or because the name is taken, [duplicate-db] rejects with "Failed to
    create Database" and sends neither a restore nor a drop: a database
    that had the name keeps existing. *)
Theorem duplicate_create_failure
    (env : Env) (newName sourceDb : string) (withData : bool) (w : World) :
  exec_fault env (dumpCommand env newName sourceDb withData) = None ->
  is_Some (query_fault env (CreateDatabase newName)) \/ newName ∈ databases w ->
  (duplicate_db env newName sourceDb withData w).1 = Exn createFailure
  /\ databases (duplicate_db env newName sourceDb withData w).2 = databases w
  /\ calls (duplicate_db env newName sourceDb withData w).2
     = calls w ++ [Exec (dumpCommand env newName sourceDb withData);
                   Query (CreateDatabase newName);
                   Unlink (tempFilePathOf env newName)].
Proof.
  intros Hdump Hcreate. steps. fold (dumpCommand env newName sourceDb withData).
  rewrite Hdump. fields.
  destruct (query_fault env (CreateDatabase newName)) as [e |] eqn:Hq; fields.
  - branches; rewrite <- ?app_assoc; repeat split.
  - destruct Hcreate as [[e He] | Hin]; [discriminate |].
    rewrite (bool_decide_eq_true_2 _ Hin). fields.
    branches; rewrite <- ?app_assoc; repeat split.
Qed.

Lemma duplicate_create_failure_witness :
  (duplicate_db allGood "source" "source" true oneDatabase).1 = Exn createFailure
  /\ databases (duplicate_db allGood "source" "source" true oneDatabase).2
     = databases oneDatabase
  /\ calls (duplicate_db allGood "source" "source" true oneDatabase).2
     = calls oneDatabase ++ [Exec (dumpCommand allGood "source" "source" true);
                             Query (CreateDatabase "source");
                             Unlink (tempFilePathOf allGood "source")].
Proof.
  apply (duplicate_create_failure allGood "source" "source" true oneDatabase).
  - reflexivity.
  - right. apply (bool_decide_unpack _). vm_compute. exact I.
Defined.

(** When every step succeeds, [duplicate-db] resolves, the new database
    is there, and the list sent to the renderer has it. *)
Theorem duplicate_success
    (env : Env) (newName sourceDb : string) (withData : bool) (w : World) :
  exec_fault env (dumpCommand env newName sourceDb withData) = None ->
  query_fault env (CreateDatabase newName) = None ->
  newName ∉ databases w ->
  exec_fault env (RunSQL newName (tempFilePathOf env newName)) = None ->
  getLists_fault env = None ->
  (duplicate_db env newName sourceDb withData w).1 = Val tt
  /\ databases (duplicate_db env newName sourceDb withData w).2 = newName :: databases w
  /\ In (DbLists (newName :: databases w))
        (sent (duplicate_db env newName sourceDb withData w).2)
  /\ calls (duplicate_db env newName sourceDb withData w).2
     = calls w ++ [Exec (dumpCommand env newName sourceDb withData);
                   Query (CreateDatabase newName);
                   Exec (RunSQL newName (tempFilePathOf env newName));
                   GetLists;
                   Unlink (tempFilePathOf env newName)].
Proof.
  intros Hdump Hcreate Hnew Hrestore Hlists.
  apply (bool_decide_eq_false_2 _) in Hnew.
  steps. fold (dumpCommand env newName sourceDb withData).
  rewrite Hdump. fields. rewrite Hcreate. fields. rewrite Hnew. fields.
  rewrite Hrestore. fields. rewrite Hlists. fields.
  branches; rewrite <- ?app_assoc; (split; [reflexivity |]);
    (split; [reflexivity |]); (split; [| reflexivity]);
    rewrite !in_app_iff; simpl; auto.
Qed.

Lemma duplicate_success_witness :
  (duplicate_db allGood "copy" "source" true oneDatabase).1 = Val tt
  /\ databases (duplicate_db allGood "copy" "source" true oneDatabase).2
     = "copy" :: databases oneDatabase
  /\ In (DbLists ("copy" :: databases oneDatabase))
        (sent (duplicate_db allGood "copy" "source" true oneDatabase).2)
  /\ calls (duplicate_db allGood "copy" "source" true oneDatabase).2
     = calls oneDatabase ++ [Exec (dumpCommand allGood "copy" "source" true);
                             Query (CreateDatabase "copy");
                             Exec (RunSQL "copy" (tempFilePathOf allGood "copy"));
                             GetLists;
                             Unlink (tempFilePathOf allGood "copy")].
Proof.
  apply (duplicate_success allGood "copy" "source" true oneDatabase);
    try reflexivity.
  apply (bool_decide_unpack _). vm_compute. exact I.
Defined.

(** A temporary file that cannot be removed changes neither the outcome
    of [duplicate-db], nor the databases, nor the calls made; the
    messages are those of the run in which the removal works, with one
    error message more, placed just before "async-complete". *)
Theorem cleanup_failure_not_fatal
    (env : Env) (newName sourceDb : string) (withData : bool) (w : World) :
  (duplicate_db env newName sourceDb withData w).1
  = (duplicate_db (quietUnlink env) newName sourceDb withData w).1
  /\ databases (duplicate_db env newName sourceDb withData w).2
     = databases (duplicate_db (quietUnlink env) newName sourceDb withData w).2
  /\ calls (duplicate_db env newName sourceDb withData w).2
     = calls (duplicate_db (quietUnlink env) newName sourceDb withData w).2
  /\ exists before,
       sent (duplicate_db (quietUnlink env) newName sourceDb withData w).2
       = before ++ [AsyncComplete]
       /\ sent (duplicate_db env newName sourceDb withData w).2
          = before
            ++ match unlink_fault env (tempFilePathOf env newName) with
               | Some _ => [cleanupFeedback env newName]
               | None => []
               end
            ++ [AsyncComplete].
Proof.
  steps. cbv [cleanupFeedback quietUnlink tempFilePathOf]. fields.
  destruct withData; fields; branches;
    (split; [reflexivity |]); (split; [reflexivity |]); (split; [reflexivity |]);
    rewrite <- ?app_assoc;
    first [ exists (sent w ++ [AsyncStarted]); by rewrite <- ?app_assoc
          | eexists (sent w ++ [AsyncStarted; _]); by rewrite <- ?app_assoc ].
Qed.

Lemma import_restore_failure_witness :
  (import_db restoreFails "newdb" "dump.sql" oneDatabase).1
  = Exn (new_Error "Failed to populate database")
  /\ ("newdb" ∉ databases (import_db restoreFails "newdb" "dump.sql" oneDatabase).2)
  /\ In (Query (DropDatabase "newdb"))
        (calls (import_db restoreFails "newdb" "dump.sql" oneDatabase).2).
Proof.
  apply (import_restore_failure restoreFails "newdb" "dump.sql"
           (mkError "Error" "Command failed") oneDatabase).
  - reflexivity.
  - apply (bool_decide_unpack _). vm_compute. exact I.
  - vm_compute. reflexivity.
  - intros cmd [-> | ->]; reflexivity.
  - reflexivity.
  - discriminate.
Defined.

(** When the database cannot be created, [import-db] rejects with the
    error of the server as it is, and sends nothing else: no restore and
    no drop, so a database that had the name keeps existing. *)
Theorem import_create_failure
    (env : Env) (newDbName filePath : string) (e : JsError) (w : World) :
  query_fault env (CreateDatabase newDbName) = Some e
  \/ (query_fault env (CreateDatabase newDbName) = None
      /\ newDbName ∈ databases w /\ e = alreadyExists newDbName) ->
  (import_db env newDbName filePath w).1 = Exn e
  /\ databases (import_db env newDbName filePath w).2 = databases w
  /\ calls (import_db env newDbName filePath w).2
     = calls w ++ [Query (CreateDatabase newDbName)].
Proof.
  intros [Hq | (Hq & Hin & ->)]; steps; rewrite Hq; fields.
  - repeat split.
  - rewrite (bool_decide_eq_true_2 _ Hin). fields. repeat split.
Qed.

Lemma import_create_failure_witness :
  (import_db allGood "source" "dump.sql" oneDatabase).1 = Exn (alreadyExists "source")
  /\ databases (import_db allGood "source" "dump.sql" oneDatabase).2
     = databases oneDatabase
  /\ calls (import_db allGood "source" "dump.sql" oneDatabase).2
     = calls oneDatabase ++ [Query (CreateDatabase "source")].
Proof.
  apply (import_create_failure allGood "source" "dump.sql" (alreadyExists "source")
           oneDatabase).
  right. split; [reflexivity |]. split; [| reflexivity].
  apply (bool_decide_unpack _). vm_compute. exact I.
Defined.

(** [import-db] of a file whose extension is [.sql] or [.tar], in any
    case of letters, restores it with the command of that format; when
    every step succeeds it resolves and the new database is there. *)
Theorem import_success
    (env : Env) (newDbName filePath : string) (w : World) :
  query_fault env (CreateDatabase newDbName) = None ->
  newDbName ∉ databases w ->
  unsupported filePath = false ->
  (forall cmd, cmd = RunSQL newDbName filePath \/ cmd = RunTAR newDbName filePath ->
               exec_fault env cmd = None) ->
  getLists_fault env = None ->
  (import_db env newDbName filePath w).1 = Val tt
  /\ databases (import_db env newDbName filePath w).2 = newDbName :: databases w
  /\ calls (import_db env newDbName filePath w).2
     = calls w ++ [Query (CreateDatabase newDbName);
                   Exec (if String.eqb (NodePath.toLowerCase (NodePath.extname filePath))
                                       ".sql"
                         then RunSQL newDbName filePath
                         else RunTAR newDbName filePath);
                   GetLists]
  /\ sent (import_db env newDbName filePath w).2
     = sent w ++ [AsyncStarted; DbLists (newDbName :: databases w); AsyncComplete].
Proof.
  intros Hcreate Hnew Hext Hrestore Hlists. unfold unsupported in Hext.
  apply (bool_decide_eq_false_2 _) in Hnew.
  steps. rewrite Hcreate. fields. rewrite Hnew. fields.
  rewrite Hext. fields.
  destruct (String.eqb _ ".sql");
    rewrite Hrestore by auto; fields; rewrite Hlists; fields;
    rewrite <- ?app_assoc; repeat split.
Qed.

Lemma import_success_witness :
  (import_db allGood "newdb" "/tmp/Backup.SQL" oneDatabase).1 = Val tt
  /\ databases (import_db allGood "newdb" "/tmp/Backup.SQL" oneDatabase).2
     = "newdb" :: databases oneDatabase
  /\ calls (import_db allGood "newdb" "/tmp/Backup.SQL" oneDatabase).2
     = calls oneDatabase ++ [Query (CreateDatabase "newdb");
                             Exec (RunSQL "newdb" "/tmp/Backup.SQL");
                             GetLists]
  /\ sent (import_db allGood "newdb" "/tmp/Backup.SQL" oneDatabase).2
     = sent oneDatabase
       ++ [AsyncStarted; DbLists ("newdb" :: databases oneDatabase); AsyncComplete].
Proof.
  apply (import_success allGood "newdb" "/tmp/Backup.SQL" oneDatabase).
  - reflexivity.
  - apply (bool_decide_unpack _). vm_compute. exact I.
  - vm_compute. reflexivity.
  - intros cmd _. reflexivity.
  - reflexivity.
Defined.

(** [drop-db] of a database that exists: the pool is first moved to the
    empty connection when the database is said to be the current one.
    If the pool is then not connected to the database, it is dropped and
    the list sent to the renderer no longer has it; if the pool is still
    connected to it, the server refuses, the handler rejects, and the
    database stays. *)
Theorem drop_db_existing
    (env : Env) (dbName : string) (currDB : bool) (w : World) :
  (currDB = true -> connect_fault env "" = None) ->
  query_fault env (DropDatabase dbName) = None ->
  dbName ∈ databases w ->
  getLists_fault env = None ->
  calls (drop_db env dbName currDB w).2
  = calls w ++ (if currDB then [Connect ""] else [])
      ++ Query (DropDatabase dbName)
         :: (if String.eqb (if currDB then "" else connection w) dbName
             then [] else [GetLists])
  /\ connection (drop_db env dbName currDB w).2 = (if currDB then "" else connection w)
  /\ if String.eqb (if currDB then "" else connection w) dbName
     then (drop_db env dbName currDB w).1 = Exn (heldOpen dbName)
          /\ databases (drop_db env dbName currDB w).2 = databases w
          /\ sent (drop_db env dbName currDB w).2 = sent w ++ [AsyncStarted; AsyncComplete]
     else (drop_db env dbName currDB w).1 = Val tt
          /\ (dbName ∉ databases (drop_db env dbName currDB w).2)
          /\ sent (drop_db env dbName currDB w).2
             = sent w ++ [AsyncStarted;
                          DbLists (databases (drop_db env dbName currDB w).2);
                          AsyncComplete].
Proof.
  intros Hconnect Hdrop Hin Hlists.
  apply (bool_decide_eq_true_2 _) in Hin.
  steps. destruct currDB; fields; rewrite ?(Hconnect eq_refl); fields;
    rewrite Hdrop; fields; rewrite Hin; fields;
    match goal with
    | |- context [String.eqb ?a dbName] => destruct (String.eqb a dbName); fields
    end;
    rewrite ?Hlists; fields; rewrite <- ?app_assoc;
    (split; [reflexivity |]); (split; [reflexivity |]);
    (split; [reflexivity |]); (split; [try apply not_in_after_drop |]);
    reflexivity.
Qed.

Lemma drop_db_existing_witness :
  calls (drop_db allGood "source" true oneDatabase).2
  = calls oneDatabase ++ [Connect ""] ++ [Query (DropDatabase "source"); GetLists]
  /\ connection (drop_db allGood "source" true oneDatabase).2 = ""
  /\ (drop_db allGood "source" true oneDatabase).1 = Val tt
  /\ ("source" ∉ databases (drop_db allGood "source" true oneDatabase).2)
  /\ sent (drop_db allGood "source" true oneDatabase).2
     = sent oneDatabase
       ++ [AsyncStarted; DbLists (databases (drop_db allGood "source" true oneDatabase).2);
           AsyncComplete].
Proof.
  apply (drop_db_existing allGood "source" true oneDatabase); try reflexivity.
  apply (bool_decide_unpack _). vm_compute. exact I.
Defined.

(** [drop-db] of a database that does not exist rejects with the error
    of the server and sends no list; when it was called for the current
    database, the pool stays on the empty connection all the same. *)
Theorem drop_db_missing
    (env : Env) (dbName : string) (currDB : bool) (w : World) :
  (currDB = true -> connect_fault env "" = None) ->
  query_fault env (DropDatabase dbName) = None ->
  dbName ∉ databases w ->
  (drop_db env dbName currDB w).1 = Exn (doesNotExist dbName)
  /\ databases (drop_db env dbName currDB w).2 = databases w
  /\ sent (drop_db env dbName currDB w).2 = sent w ++ [AsyncStarted; AsyncComplete]
  /\ connection (drop_db env dbName currDB w).2
     = (if currDB then "" else connection w).
Proof.
  intros Hconnect Hdrop Hnew.
  apply (bool_decide_eq_false_2 _) in Hnew.
  steps. destruct currDB; fields; rewrite ?(Hconnect eq_refl); fields;
    rewrite Hdrop; fields; rewrite Hnew; fields;
    rewrite <- ?app_assoc; repeat split.
Qed.

Lemma drop_db_missing_witness :
  (drop_db allGood "ghost" true oneDatabase).1 = Exn (doesNotExist "ghost")
  /\ databases (drop_db allGood "ghost" true oneDatabase).2 = databases oneDatabase
  /\ sent (drop_db allGood "ghost" true oneDatabase).2
     = sent oneDatabase ++ [AsyncStarted; AsyncComplete]
  /\ connection (drop_db allGood "ghost" true oneDatabase).2 = "".
Proof.
  apply (drop_db_missing allGood "ghost" true oneDatabase); try reflexivity.
  apply (bool_decide_unpack _). vm_compute. exact I.
Defined.

(** In [run-query], when the list of databases cannot be read in the
    [finally] block, the handler rejects with that error although both
    statements were sent: the result of the query is lost, and
    "async-complete" is not sent. *)
Theorem run_query_completion_lost
    (env : Env) (targetDb sqlString selectedDb : string) (e : JsError) (w : World) :
  connect_fault env targetDb = None ->
  connect_fault env selectedDb = None ->
  getLists_fault env = Some e ->
  (run_query env targetDb sqlString selectedDb w).1 = Exn e
  /\ sent (run_query env targetDb sqlString selectedDb w).2 = sent w ++ [AsyncStarted]
  /\ In (Query (Statement sqlString))
        (calls (run_query env targetDb sqlString selectedDb w).2).
Proof.
  intros Htarget Hselected Hlists. steps.
  destruct (negb (String.eqb selectedDb targetDb));
    rewrite ?Htarget; fields;
    (destruct (statement_reply env (explainOf sqlString))
       as [ee | [rows | [| first [| plan more]]]]; fields;
     destruct (statement_reply env sqlString) as [e1 | reply]; fields;
     rewrite ?Hselected; fields; rewrite Hlists; fields;
     (split; [reflexivity |]); (split; [reflexivity |]);
     rewrite !in_app_iff; simpl; auto 10).
Qed.

Lemma run_query_completion_lost_witness :
  (run_query listsFail "target" "select 1" "source" oneDatabase).1
  = Exn (mkError "Error" "Connection terminated")
  /\ sent (run_query listsFail "target" "select 1" "source" oneDatabase).2
     = sent oneDatabase ++ [AsyncStarted]
  /\ In (Query (Statement "select 1"))
        (calls (run_query listsFail "target" "select 1" "source" oneDatabase).2).
Proof.
  apply (run_query_completion_lost listsFail "target" "select 1" "source"
           (mkError "Error" "Connection terminated") oneDatabase); reflexivity.
Defined.

(** In [run-query], when the target database is not the selected one and
    cannot be connected to, no statement is sent: the handler rejects
    with the connection's error after it has connected back to the
    selected database and sent the list. *)
Theorem run_query_target_unreachable
    (env : Env) (targetDb sqlString selectedDb : string) (e : JsError) (w : World) :
  String.eqb selectedDb targetDb = false ->
  connect_fault env targetDb = Some e ->
  connect_fault env selectedDb = None ->
  getLists_fault env = None ->
  (run_query env targetDb sqlString selectedDb w).1 = Exn e
  /\ calls (run_query env targetDb sqlString selectedDb w).2
     = calls w ++ [Connect targetDb; Connect selectedDb; GetLists]
  /\ sent (run_query env targetDb sqlString selectedDb w).2
     = sent w ++ [AsyncStarted; DbLists (databases w); AsyncComplete]
  /\ connection (run_query env targetDb sqlString selectedDb w).2 = selectedDb.
Proof.
  intros Hne Htarget Hselected Hlists. steps. rewrite Hne. cbn [negb].
  rewrite Htarget. fields. rewrite Hselected. fields. rewrite Hlists. fields.
  rewrite <- ?app_assoc. repeat split.
Qed.

Lemma run_query_target_unreachable_witness :
  (run_query targetDown "target" "select 1" "source" oneDatabase).1
  = Exn (mkError "error" "database target does not exist")
  /\ calls (run_query targetDown "target" "select 1" "source" oneDatabase).2
     = calls oneDatabase ++ [Connect "target"; Connect "source"; GetLists]
  /\ sent (run_query targetDown "target" "select 1" "source" oneDatabase).2
     = sent oneDatabase ++ [AsyncStarted; DbLists (databases oneDatabase); AsyncComplete]
  /\ connection (run_query targetDown "target" "select 1" "source" oneDatabase).2
     = "source".
Proof.
  apply (run_query_target_unreachable targetDown "target" "select 1" "source"
           (mkError "error" "database target does not exist") oneDatabase);
    reflexivity.
Defined.

(** After [run-query] on another database than the selected one, the
    pool is connected to the selected database again, whether the
    statement failed or not; on the selected database itself the
    connection is not touched. *)
Theorem run_query_restores_connection
    (env : Env) (targetDb sqlString selectedDb : string) (w : World) :
  connect_fault env targetDb = None ->
  connect_fault env selectedDb = None ->
  connection (run_query env targetDb sqlString selectedDb w).2
  = (if String.eqb selectedDb targetDb then connection w else selectedDb).
Proof.
  intros Htarget Hselected. steps.
  destruct (String.eqb selectedDb targetDb); cbn [negb];
    rewrite ?Htarget; fields;
    (destruct (statement_reply env (explainOf sqlString))
       as [ee | [rows | [| first [| plan more]]]]; fields;
     destruct (statement_reply env sqlString) as [e1 | reply]; fields;
     rewrite ?Hselected; fields; branches; reflexivity).
Qed.

Lemma run_query_restores_connection_witness :
  connection (run_query bothFail "target" "select 1" "source" oneDatabase).2
  = "source".
Proof.
  apply (run_query_restores_connection bothFail "target" "select 1" "source" oneDatabase);
    reflexivity.
Defined.

End HandlerPaths.

(** ** The database-name field *)

Section DatabaseNames.
Import AddNewDbModal.

Lemma lower_char_kept (c : ascii) :
  kept (NodePath.lower_char c) = kept c
  /\ (kept c = true -> is_alnum (NodePath.lower_char c) = true).
Proof.
  destruct c as [[] [] [] [] [] [] [] []]; vm_compute; split; congruence.
Qed.

Lemma alnum_kept (c : ascii) :
  is_alnum c = true -> kept c = true /\ NodePath.lower_char c = c.
Proof.
  destruct c as [[] [] [] [] [] [] [] []]; vm_compute; intros H;
    split; congruence.
Qed.

Lemma handleDbName_safe (s : string) : alnum_string (handleDbName s).
Proof.
  unfold handleDbName, alnum_string.
  induction s as [| c rest IH]; [constructor |].
  cbn [NodePath.toLowerCase strip].
  destruct (lower_char_kept c) as [_ Hal].
  destruct (kept (NodePath.lower_char c)) eqn:Hk; [| exact IH].
  cbn [list_ascii_of_string]. constructor; [| exact IH].
  apply Hal. by rewrite <- (proj1 (lower_char_kept c)).
Qed.

(** The name kept for what is typed holds lower-case letters and digits
    only, and is no longer than what is typed. *)
Theorem handleDbName_alphabet (dbNameInput : string) :
  alnum_string (handleDbName dbNameInput)
  /\ (String.length (handleDbName dbNameInput) <= String.length dbNameInput)%nat.
Proof.
  split; [apply handleDbName_safe |]. unfold handleDbName.
  induction dbNameInput as [| c rest IH]; [reflexivity |].
  cbn [NodePath.toLowerCase strip String.length].
  destruct (kept (NodePath.lower_char c)); cbn [String.length]; lia.
Qed.

(** A name of lower-case letters and digits is kept as it is typed; so
    the name kept is not changed by being typed again. *)
Theorem handleDbName_fixes_safe_names (dbNameInput : string) :
  (alnum_string dbNameInput -> handleDbName dbNameInput = dbNameInput)
  /\ handleDbName (handleDbName dbNameInput) = handleDbName dbNameInput.
Proof.
  assert (Hfix : forall s, alnum_string s -> handleDbName s = s).
  { unfold handleDbName, alnum_string. intros s.
    induction s as [| c rest IH]; intros Hs; [reflexivity |].
    cbn [list_ascii_of_string] in Hs. inversion Hs as [| ? ? Hc Hrest]; subst.
    cbn [NodePath.toLowerCase strip].
    destruct (alnum_kept c Hc) as [Hk ->]. rewrite Hk. f_equal. by apply IH. }
  split; [apply Hfix |]. apply Hfix. apply handleDbName_safe.
Qed.

Lemma handleDbName_fixes_safe_names_witness :
  handleDbName "testdb2" = "testdb2".
Proof.
  apply (proj1 (handleDbName_fixes_safe_names "testdb2")).
  repeat constructor.
Defined.

End DatabaseNames.
